(** * EduShare API (src/api/index.js): a shallow embedding and its properties

    The service is an Express router over two Azure SDK clients: a Cosmos DB
    container holding the asset documents (partition key [/visibility]) and a
    blob container holding the file contents.  The handlers are embedded as
    functions in a state-and-exception monad over the two stores; the SDK
    calls, the clock and the random source are the primitives of that monad. *)

From stdpp Require Import gmap strings list fin_maps sorting.

Open Scope Z_scope.

(** ** JavaScript strings and values *)

(** A JavaScript string is a sequence of UTF-16 code units. *)
Abbreviation jstring := (list N).

(** A string literal of the source (all of them are ASCII). *)
Definition str (s : string) : jstring :=
  Ascii.N_of_ascii <$> String.list_ascii_of_string s.

(** ECMAScript [WhiteSpace] and [LineTerminator] code points: the characters
    removed by [String.prototype.trim] and matched by the regexp class [\s]. *)
Definition isWhiteSpace (c : N) : bool :=
  bool_decide (c ∈ [9; 10; 11; 12; 13; 32; 160; 5760; 8232; 8233; 8239; 8287;
                    12288; 65279]%N)
  || ((8192 <=? c)%N && (c <=? 8202)%N).

Fixpoint trimStart (s : jstring) : jstring :=
  match s with
  | c :: s' => if isWhiteSpace c then trimStart s' else s
  | [] => []
  end.

Definition trimEnd (s : jstring) : jstring := reverse (trimStart (reverse s)).

(** [s.trim()] *)
Definition trim (s : jstring) : jstring := trimEnd (trimStart s).

(** [s.replace(/\s+/g, "_")]: every maximal run of whitespace becomes one
    underscore.  [in_run] tells that the previous code unit was whitespace. *)
Fixpoint replace_ws_from (in_run : bool) (s : jstring) : jstring :=
  match s with
  | [] => []
  | c :: s' =>
      if isWhiteSpace c
      then (if in_run then replace_ws_from true s'
            else 95%N :: replace_ws_from true s')
      else c :: replace_ws_from false s'
  end.

Definition replace_ws (s : jstring) : jstring := replace_ws_from false s.

(** [s.toLowerCase()] on Basic Latin; code units outside it are left as they
    are.  No string holding such a code unit lowercases to [public] or to
    [private] (the one character that lowercases into Basic Latin is the
    Kelvin sign, to [k]), so [safeVisibility] is not affected. *)
Definition lower_unit (c : N) : N :=
  if ((65 <=? c) && (c <=? 90))%N then (c + 32)%N else c.

Definition toLowerCase (s : jstring) : jstring := lower_unit <$> s.

(** The values a request field can hold: [req.query] (qs) gives strings,
    arrays and objects, a JSON body gives any JSON value, and a field that is
    not there reads as [undefined]. *)
#[warnings="-register-all"]
Inductive jsval :=
  | JUndefined
  | JNull
  | JBool (b : bool)
  | JNum (n : Z)
  | JStr (s : jstring)
  | JArr (items : list jsval)
  | JObj.

(** ToBoolean *)
Definition truthy (v : jsval) : bool :=
  match v with
  | JUndefined | JNull => false
  | JBool b => b
  | JNum n => negb (n =? 0)
  | JStr s => negb (bool_decide (s = []))
  | JArr _ | JObj => true
  end.

(** [a || b] *)
Definition js_or (a b : jsval) : jsval := if truthy a then a else b.
Infix "|||" := js_or (at level 50, left associativity).

(** ** Exceptions *)

(** A thrown [Error]; the handlers only ever look at its [message]. *)
Record Exn := Error { message : jstring }.

(** The [TypeError] of calling a method the receiver does not have, as far
    as the method goes; the call site adds the receiver ([at_receiver]). *)
Definition not_a_function (method : string) : Exn :=
  Error (str (method +:+ " is not a function")).

(** A string literal as the source writes it, between double quotes. *)
Definition quoted (s : string) : jstring := 34%N :: str s ++ [34%N].

(** V8 names the callee of a failed call by its source text: the receiver
    expression, a dot and the method name. *)
Definition at_receiver (receiver : jstring) (e : Exn) : Exn :=
  Error (receiver ++ str "." ++ message e).

(** The receiver expressions of the three method calls of the source
    (lines 47, 61 and 141). *)
Definition safeVisibility_receiver : jstring :=
  str "(v || " ++ quoted "private" ++ str ")".
Definition post_title_receiver : jstring :=
  str "(req.body.title || req.file?.originalname || " ++ quoted "Untitled" ++ str ")".
Definition put_title_receiver : jstring :=
  str "(req.body.title || " ++ quoted "" ++ str ")".

(** [v.m()] for a string method [m]: only strings have it. *)
Definition call_string_method (method : string) (m : jstring → jstring)
    (v : jsval) : Exn + jstring :=
  match v with
  | JStr s => inr (m s)
  | _ => inl (not_a_function method)
  end.

(** ** Helpers of the source *)

(** [safeVisibility] (lines 46-50) *)
Definition safeVisibility (v : jsval) : Exn + jstring :=
  match call_string_method "toLowerCase" toLowerCase (v ||| JStr (str "private")) with
  | inl e => inl (at_receiver safeVisibility_receiver e)
  | inr vis =>
      if bool_decide (vis ∈ [str "public"; str "private"])
      then inr vis
      else inr (str "private")
  end.

(** ** Documents, requests and responses *)

(** A time stamp is kept as the clock reading it renders, in epoch
    milliseconds: [toISOString] is injective, and on its fixed-width output
    (years 0000 to 9999) the order of the strings is the order of the
    readings, which is what [ORDER BY c.createdAt] compares. *)
Abbreviation timestamp := Z.

(** The asset document built at lines 76-87. *)
Module Asset.
Record t := mk {
  id : jstring;
  visibility : jstring;
  title : jstring;
  fileName : jstring;
  mimeType : jstring;
  size : N;
  blobName : jstring;
  blobUrl : jstring;
  createdAt : timestamp;
  updatedAt : timestamp
}.

(** [resource.title = newTitle] *)
Definition set_title (x : jstring) (d : t) : t :=
  mk (id d) (visibility d) x (fileName d) (mimeType d) (size d)
     (blobName d) (blobUrl d) (createdAt d) (updatedAt d).

(** [resource.updatedAt = ...] *)
Definition set_updatedAt (x : timestamp) (d : t) : t :=
  mk (id d) (visibility d) (title d) (fileName d) (mimeType d) (size d)
     (blobName d) (blobUrl d) (createdAt d) x.
End Asset.

(** [req.file] as multer's memory storage leaves it. *)
Module File.
Record t := mk {
  originalname : jstring;
  mimetype : jstring;
  size : N;
  buffer : list N
}.
End File.

(** The parts of an Express request the handlers read. *)
Record Request := {
  params_id : jstring;          (* req.params.id *)
  query_visibility : jsval;     (* req.query.visibility *)
  body_visibility : jsval;      (* req.body.visibility *)
  body_title : jsval;           (* req.body.title *)
  file : option File.t          (* req.file *)
}.

(** What [res.json] is given. *)
Inductive Json :=
  | JsonAsset (doc : Asset.t)
  | JsonAssets (resources : list Asset.t)
  | JsonError (error : jstring)               (* { error } *)
  | JsonDeleted (id : jstring).               (* { deleted: true, id } *)

Record Response := { status : Z; json : Json }.

(** [res.status(code).json(body)]; [res.json(body)] alone answers 200. *)
Definition res_status_json (code : Z) (body : Json) : Response :=
  {| status := code; json := body |}.
Definition res_json (body : Json) : Response := res_status_json 200 body.

(** ** The two stores and the environment *)

Record Blob := { content : list N; blobContentType : jstring }.

(** The durable state and the positions reached in the environment's
    streams.  The Cosmos container is keyed by (id, partition key). *)
Record World := {
  container : gmap (jstring * jstring) Asset.t;
  blobContainer : gmap jstring Blob;
  ticks : nat;       (* clock readings taken so far *)
  calls : nat;       (* SDK calls awaited so far *)
  draws : nat        (* random bytes drawn so far *)
}.

Definition set_container (f : gmap (jstring * jstring) Asset.t → gmap (jstring * jstring) Asset.t)
    (w : World) : World :=
  {| container := f (container w); blobContainer := blobContainer w;
     ticks := ticks w; calls := calls w; draws := draws w |}.

Definition set_blobContainer (f : gmap jstring Blob → gmap jstring Blob)
    (w : World) : World :=
  {| container := container w; blobContainer := f (blobContainer w);
     ticks := ticks w; calls := calls w; draws := draws w |}.

Definition next_tick (w : World) : World :=
  {| container := container w; blobContainer := blobContainer w;
     ticks := S (ticks w); calls := calls w; draws := draws w |}.

Definition next_call (w : World) : World :=
  {| container := container w; blobContainer := blobContainer w;
     ticks := ticks w; calls := S (calls w); draws := draws w |}.

Definition drawn (n : nat) (w : World) : World :=
  {| container := container w; blobContainer := blobContainer w;
     ticks := ticks w; calls := calls w; draws := (draws w + n)%nat |}.

(** What the handlers cannot decide: the clock, the random source, whether
    an awaited SDK call rejects, and the platform. *)
Record Env := {
  clock : nat → timestamp;        (* the n-th reading of [new Date()] *)
  fault : nat → option Exn;       (* the n-th awaited SDK call: [Some e] rejects with [e] *)
  entropy : nat → N;              (* the n-th byte of the random source *)
  hasRandomUUID : bool;           (* [crypto.randomUUID] is defined *)
  blobUrlOf : jstring → jstring   (* [BlockBlobClient.url] of a blob name *)
}.

(** ** The monad of a handler body *)

Definition M (A : Type) : Type := World → (Exn + A) * World.

Definition ret {A} (a : A) : M A := λ w, (inr a, w).
Definition throw {A} (e : Exn) : M A := λ w, (inl e, w).
Definition lift {A} (r : Exn + A) : M A := λ w, (r, w).
(** The result of a method call made on [receiver]. *)
Definition lift_at {A} (receiver : jstring) (r : Exn + A) : M A :=
  match r with
  | inl e => throw (at_receiver receiver e)
  | inr a => ret a
  end.
Definition bind {A B} (m : M A) (k : A → M B) : M B := λ w,
  match m w with
  | (inl e, w') => (inl e, w')
  | (inr a, w') => k a w'
  end.

Notation "x <- m ;; k" := (bind m (λ x, k))
  (at level 100, m at next level, right associativity).
Notation "m ;; k" := (bind m (λ _, k))
  (at level 100, right associativity).

(** [err.message || fallback] *)
Definition message_or (e : Exn) (fallback : jstring) : jstring :=
  if bool_decide (message e = []) then fallback else message e.

(** [try { ... } catch (err) { res.status(500).json({ error: err.message || fallback }) }] *)
Definition try_catch (body : M Response) (fallback : string)
    : World → Response * World := λ w,
  match body w with
  | (inr r, w') => (r, w')
  | (inl e, w') => (res_status_json 500 (JsonError (message_or e (str fallback))), w')
  end.

(** The SQL texts of the list handler (lines 104-106), and what Cosmos
    answers: the documents that satisfy the [WHERE] clause, the newest
    [createdAt] first. *)
Inductive Query :=
  | SelectAll                              (* SELECT * FROM c ORDER BY c.createdAt DESC *)
  | SelectByVisibility (v : jstring).      (* ... WHERE c.visibility = @v ORDER BY c.createdAt DESC *)

Definition matches (q : Query) (d : Asset.t) : bool :=
  match q with
  | SelectAll => true
  | SelectByVisibility v => bool_decide (Asset.visibility d = v)
  end.

(** [a] is listed no later than [b] under [ORDER BY c.createdAt DESC]. *)
Definition newer_first (a b : Asset.t) : Prop :=
  Asset.createdAt b ≤ Asset.createdAt a.

#[global] Instance newer_first_dec : RelDecision newer_first :=
  λ a b, Z_le_dec (Asset.createdAt b) (Asset.createdAt a).

Definition run_query (q : Query) (m : gmap (jstring * jstring) Asset.t)
    : list Asset.t :=
  merge_sort newer_first (filter (λ d, matches q d = true) (map_to_list m).*2).

(** [buf.toString("hex")] *)
Definition hex_digit (d : N) : N := if (d <? 10)%N then (48 + d)%N else (87 + d)%N.

Definition hex (bytes : list N) : jstring :=
  bytes ≫= λ b, [hex_digit (b `div` 16)%N; hex_digit (b `mod` 16)%N].

(** [crypto.randomUUID()] out of 16 random bytes: version 4, variant 1, in
    the 8-4-4-4-12 layout. *)
Definition uuid_of_bytes (b : list N) : jstring :=
  let b := alter (λ x, N.lor (N.land x 15) 64) 6%nat b in
  let b := alter (λ x, N.lor (N.land x 63) 128) 8%nat b in
  hex (take 4 b) ++ str "-" ++ hex (take 2 (drop 4 b)) ++ str "-" ++
  hex (take 2 (drop 6 b)) ++ str "-" ++ hex (take 2 (drop 8 b)) ++ str "-" ++
  hex (take 6 (drop 10 b)).

Section Handlers.
Context (env : Env).

(** *** Primitives *)

(** [await] of an SDK call: the environment may reject it, and then the
    call has had no effect on the stores. *)
Definition sdk {A} (op : M A) : M A := λ w,
  match fault env (calls w) with
  | Some e => (inl e, next_call w)
  | None => op (next_call w)
  end.

(** [new Date().toISOString()] *)
Definition now : M timestamp := λ w, (inr (clock env (ticks w)), next_tick w).

(** [crypto.randomBytes(n)] *)
Definition randomBytes (n : nat) : M (list N) := λ w,
  (inr ((λ i, (entropy env (draws w + i) `mod` 256)%N) <$> seq 0 n), drawn n w).

Definition randomUUID : M jstring :=
  b <- randomBytes 16 ;; ret (uuid_of_bytes b).

(** [container.item(id, pk).read()]: an absent item is no error, its
    [resource] is [undefined]. *)
Definition item_read (id pk : jstring) : M (option Asset.t) :=
  sdk (λ w, (inr (container w !! (id, pk)), w)).

(** [container.item(id, pk).replace(body)]: the item must be there. *)
Definition item_replace (id pk : jstring) (body : Asset.t) : M Asset.t :=
  sdk (λ w,
    match container w !! (id, pk) with
    | Some _ => (inr body, set_container <[(id, pk) := body]> w)
    | None => (inl (Error (str "Entity with the specified id does not exist in the system.")), w)
    end).

(** [container.item(id, pk).delete()]: the item must be there. *)
Definition item_delete (id pk : jstring) : M unit :=
  sdk (λ w,
    match container w !! (id, pk) with
    | Some _ => (inr (), set_container (delete (id, pk)) w)
    | None => (inl (Error (str "Entity with the specified id does not exist in the system.")), w)
    end).

(** [container.items.create(doc)]: (id, partition key) must be free. *)
Definition items_create (doc : Asset.t) : M unit :=
  sdk (λ w,
    let key := (Asset.id doc, Asset.visibility doc) in
    match container w !! key with
    | Some _ => (inl (Error (str "Entity with the specified id already exists in the system.")), w)
    | None => (inr (), set_container <[key := doc]> w)
    end).

(** [container.items.query(q).fetchAll()] *)
Definition items_query (q : Query) : M (list Asset.t) :=
  sdk (λ w, (inr (run_query q (container w)), w)).

(** [blobContainer.createIfNotExists()].  The state holds the blobs of the
    blob container, not whether the container itself exists: creating a
    missing container adds no blob, and a missing container shows as a
    rejected call in the calls that need it. *)
Definition createIfNotExists : M unit := sdk (ret ()).

(** [blockBlob.uploadData(buffer, { blobHTTPHeaders })] *)
Definition uploadData (name : jstring) (buffer : list N) (contentType : jstring) : M unit :=
  sdk (λ w, (inr (), set_blobContainer <[name := {| content := buffer; blobContentType := contentType |}]> w)).

(** [blobClient.deleteIfExists()] *)
Definition deleteIfExists (name : jstring) : M unit :=
  sdk (λ w, (inr (), set_blobContainer (delete name) w)).

(** *** Helpers *)

(** [makeId] (lines 42-44) *)
Definition makeId : M jstring :=
  if hasRandomUUID env then randomUUID
  else (b <- randomBytes 16 ;; ret (hex b)).

(** [req.file?.originalname] *)
Definition file_originalname (f : option File.t) : jsval :=
  match f with
  | Some f => JStr (File.originalname f)
  | None => JUndefined
  end.

(** *** POST /files (lines 58-96) *)
Definition post_files (req : Request) : World → Response * World :=
  try_catch (
    visibility <- lift (safeVisibility (body_visibility req)) ;;
    title <- lift_at post_title_receiver (call_string_method "trim" trim
               (body_title req ||| file_originalname (file req) ||| JStr (str "Untitled"))) ;;
    match file req with
    | None => ret (res_status_json 400 (JsonError (str "Missing file")))
    | Some f =>
        createIfNotExists ;;
        id <- makeId ;;
        let blobName := replace_ws (id ++ str "-" ++ File.originalname f) in
        uploadData blobName (File.buffer f) (File.mimetype f) ;;
        createdAt <- now ;;
        updatedAt <- now ;;
        let doc := Asset.mk id visibility title (File.originalname f)
                     (File.mimetype f) (File.size f) blobName
                     (blobUrlOf env blobName) createdAt updatedAt in
        items_create doc ;;
        ret (res_status_json 201 (JsonAsset doc))
    end) "Upload failed".

(** *** GET /files (lines 100-114) *)
Definition get_files (req : Request) : World → Response * World :=
  try_catch (
    visibility <-
      (if truthy (query_visibility req)
       then v <- lift (safeVisibility (query_visibility req)) ;; ret (Some v)
       else ret None) ;;
    let query :=
      match visibility with
      | Some v => SelectByVisibility v
      | None => SelectAll
      end in
    resources <- items_query query ;;
    ret (res_json (JsonAssets resources))) "Failed to list files".

(** *** GET /files/:id (lines 118-131) *)
Definition get_file (req : Request) : World → Response * World :=
  try_catch (
    let id := params_id req in
    visibility <- lift (safeVisibility (query_visibility req)) ;;
    resource <- item_read id visibility ;;
    match resource with
    | None => ret (res_status_json 404 (JsonError (str "Not found")))
    | Some resource => ret (res_json (JsonAsset resource))
    end) "Failed to get file".

(** *** PUT /files/:id (lines 137-157) *)
Definition put_file (req : Request) : World → Response * World :=
  try_catch (
    let id := params_id req in
    visibility <- lift (safeVisibility (body_visibility req ||| query_visibility req)) ;;
    newTitle <- lift_at put_title_receiver
                  (call_string_method "trim" trim (body_title req ||| JStr (str ""))) ;;
    if negb (truthy (JStr visibility))
    then ret (res_status_json 400 (JsonError (str "visibility required")))
    else
      resource <- item_read id visibility ;;
      match resource with
      | None => ret (res_status_json 404 (JsonError (str "Not found")))
      | Some resource =>
          let resource :=
            if truthy (JStr newTitle) then Asset.set_title newTitle resource
            else resource in
          t <- now ;;
          let resource := Asset.set_updatedAt t resource in
          updated <- item_replace id visibility resource ;;
          ret (res_json (JsonAsset updated))
      end) "Failed to update file".

(** *** DELETE /files/:id (lines 161-185) *)
Definition delete_file (req : Request) : World → Response * World :=
  try_catch (
    let id := params_id req in
    visibility <- lift (safeVisibility (query_visibility req)) ;;
    if negb (truthy (JStr visibility))
    then ret (res_status_json 400 (JsonError (str "visibility required")))
    else
      resource <- item_read id visibility ;;
      match resource with
      | None => ret (res_status_json 404 (JsonError (str "Not found")))
      | Some resource =>
          item_delete id visibility ;;
          (if truthy (JStr (Asset.blobName resource))
           then deleteIfExists (Asset.blobName resource)
           else ret ()) ;;
          ret (res_json (JsonDeleted id))
      end) "Failed to delete file".
End Handlers.

(** * Reference data and notions used in the statements *)

(** An environment with the given clock and rejections. *)
Definition mkEnv (clk : nat → timestamp) (flt : nat → option Exn) : Env :=
  {| clock := clk; fault := flt; entropy := λ n, N.of_nat (17 * n + 3);
     hasRandomUUID := true;
     blobUrlOf := λ n, str "https://edushare.blob.core.windows.net/uploads/" ++ n |}.

(** A clock that advances one millisecond per reading, and no rejected call. *)
Definition calm : Env := mkEnv (λ n, 1700000000000 + Z.of_nat n) (λ _, None).

(** Empty stores. *)
Definition world0 : World :=
  {| container := ∅; blobContainer := ∅; ticks := 0; calls := 0; draws := 0 |}.

(** A request for [/files/<id>] with the given query visibility, body
    visibility, body title and file part. *)
Definition request (id : string) (qv bv bt : jsval) (f : option File.t) : Request :=
  {| params_id := str id; query_visibility := qv; body_visibility := bv;
     body_title := bt; file := f |}.

(** The file part [notes.pdf]. *)
Definition notes_pdf : File.t :=
  File.mk (str "notes.pdf") (str "application/pdf") 3 [37; 80; 68]%N.

(** One public asset [a1], with its blob. *)
Definition asset1 : Asset.t :=
  Asset.mk (str "a1") (str "public") (str "Notes") (str "notes.pdf")
    (str "application/pdf") 3 (str "a1-notes.pdf")
    (str "https://edushare.blob.core.windows.net/uploads/a1-notes.pdf")
    1700000000000 1700000000000.

(** The stores holding [a1] only. *)
Definition world1 : World :=
  {| container := {[ (str "a1", str "public") := asset1 ]};
     blobContainer := {[ str "a1-notes.pdf" := {| content := [37; 80; 68]%N;
                                                  blobContentType := str "application/pdf" |} ]};
     ticks := 0; calls := 0; draws := 0 |}.

(** The blob store rejects the third awaited call of a request. *)
Definition blob_outage : Env :=
  mkEnv (λ n, 1700000000000 + Z.of_nat n)
    (λ n, if decide (n = 2%nat) then Some (Error (str "The operation timed out.")) else None).

(** [DELETE /files/a1?visibility=public] *)
Definition delete_a1_public : Request :=
  request "a1" (JStr (str "public")) JUndefined JUndefined None.

(** One private asset [a2]. *)
Definition asset2 : Asset.t :=
  Asset.mk (str "a2") (str "private") (str "Draft") (str "draft.txt")
    (str "text/plain") 5 (str "a2-draft.txt")
    (str "https://edushare.blob.core.windows.net/uploads/a2-draft.txt")
    1700000000500 1700000000500.

(** The stores holding [a2] only. *)
Definition world2 : World :=
  {| container := {[ (str "a2", str "private") := asset2 ]};
     blobContainer := {[ str "a2-draft.txt" := {| content := [100; 114; 97; 102; 116]%N;
                                                  blobContentType := str "text/plain" |} ]};
     ticks := 0; calls := 0; draws := 0 |}.

(** The documents of every partition. *)
Definition documents (w : World) : list Asset.t := (map_to_list (container w)).*2.

(** A second public asset [a3], the newest of the three. *)
Definition asset3 : Asset.t :=
  Asset.mk (str "a3") (str "public") (str "Slides") (str "slides.pdf")
    (str "application/pdf") 9 (str "a3-slides.pdf")
    (str "https://edushare.blob.core.windows.net/uploads/a3-slides.pdf")
    1700000000900 1700000000900.

(** Two public assets and a private one. *)
Definition world3 : World :=
  {| container := {[ (str "a1", str "public") := asset1;
                     (str "a2", str "private") := asset2;
                     (str "a3", str "public") := asset3 ]};
     blobContainer := ∅; ticks := 0; calls := 0; draws := 0 |}.

(** The 16 bytes [crypto.randomBytes(16)] draws in world [w]. *)
Definition drawn_bytes (env : Env) (w : World) : list N :=
  (λ i, (entropy env (draws w + i) `mod` 256)%N) <$> seq 0 16.

(** The id [makeId] gives in world [w]. *)
Definition id_in (env : Env) (w : World) : jstring :=
  if hasRandomUUID env then uuid_of_bytes (drawn_bytes env w)
  else hex (drawn_bytes env w).

(** No code unit of [s] is whitespace. *)
Definition clean (s : jstring) : Prop := Forall (λ c, isWhiteSpace c = false) s.

(** [POST /files] with [notes.pdf] and the given form fields. *)
Definition upload_notes (title visibility : jsval) : Request :=
  request "" JUndefined visibility title (Some notes_pdf).

(** A visibility given twice in the query string, as qs parses it. *)
Definition twice : jsval := JArr [JStr (str "public"); JStr (str "public")].

(** The request with another [req.query.visibility], [req.body.visibility]. *)
Definition with_query_visibility (v : jsval) (req : Request) : Request :=
  {| params_id := params_id req; query_visibility := v;
     body_visibility := body_visibility req; body_title := body_title req;
     file := file req |}.

Definition with_body_visibility (v : jsval) (req : Request) : Request :=
  {| params_id := params_id req; query_visibility := query_visibility req;
     body_visibility := v; body_title := body_title req; file := file req |}.

(** ** Start-up *)

(** [requireEnv] (lines 23-25).  A variable of [process.env] is a string,
    or [undefined] when it is not set. *)
Definition requireEnv (name : string) (value : jsval) : Exn + unit :=
  if negb (truthy value)
  then inl (Error (str ("Missing environment variable: " +:+ name)))
  else inr ().

(** The three checks of lines 27-29, run in that order while the module
    loads; the first one that throws ends the start-up. *)
Definition check_env (COSMOS_ENDPOINT COSMOS_KEY BLOB_CONNECTION_STRING : jsval)
    : Exn + unit :=
  match requireEnv "COSMOS_ENDPOINT" COSMOS_ENDPOINT with
  | inl e => inl e
  | inr _ =>
      match requireEnv "COSMOS_KEY" COSMOS_KEY with
      | inl e => inl e
      | inr _ => requireEnv "BLOB_CONNECTION_STRING" BLOB_CONNECTION_STRING
      end
  end.

(** ** Notions used in the statements about the stores *)

(** [a] and [b] agree on every field but [title] and [updatedAt]. *)
Definition same_file (a b : Asset.t) : Prop :=
  Asset.id a = Asset.id b
  ∧ Asset.visibility a = Asset.visibility b
  ∧ Asset.fileName a = Asset.fileName b
  ∧ Asset.mimeType a = Asset.mimeType b
  ∧ Asset.size a = Asset.size b
  ∧ Asset.blobName a = Asset.blobName b
  ∧ Asset.blobUrl a = Asset.blobUrl b
  ∧ Asset.createdAt a = Asset.createdAt b.

(** Every document sits at its own (id, visibility), and its visibility is
    one of the two partitions. *)
Definition well_keyed (m : gmap (jstring * jstring) Asset.t) : Prop :=
  map_Forall (λ k d, k = (Asset.id d, Asset.visibility d)
                     ∧ (Asset.visibility d = str "public"
                        ∨ Asset.visibility d = str "private")) m.

(** A request field the string methods can be called on after the [||]
    default: a falsy value, which the default replaces, or a string. *)
Definition falsy_or_string (v : jsval) : Prop :=
  truthy v = false ∨ ∃ s, v = JStr s.

(** [s] is [t] written in some mix of upper and lower case Basic Latin
    letters: code unit by code unit, the same, or the capital of it. *)
Definition case_variant_of (t s : jstring) : Prop :=
  Forall2 (λ c d, c = d ∨ ((65 ≤ c ≤ 90)%N ∧ d = (c + 32)%N)) s t.

(** The document an update writes over [old]. *)
Definition updated_doc (newTitle : jstring) (t : timestamp) (old : Asset.t) : Asset.t :=
  Asset.set_updatedAt t
    (if truthy (JStr newTitle) then Asset.set_title newTitle old else old).

(** The blob an upload of [f] writes. *)
Definition blob_of (f : File.t) : Blob :=
  {| content := File.buffer f; blobContentType := File.mimetype f |}.

(** [GET /files/<id>?visibility=<v>] *)
Definition read_request (id v : jstring) : Request :=
  {| params_id := id; query_visibility := JStr v; body_visibility := JUndefined;
     body_title := JUndefined; file := None |}.

(** The first two awaited calls go through and the third is rejected with
    an empty message. *)
Definition third_call_fails : Env :=
  mkEnv (λ n, 1700000000000 + Z.of_nat n)
    (λ n, if decide (n = 2%nat) then Some (Error []) else None).

(** The first awaited call is rejected. *)
Definition first_call_fails : Env :=
  mkEnv (λ n, 1700000000000 + Z.of_nat n)
    (λ n, if decide (n = 0%nat) then Some (Error (str "Request timed out.")) else None).

(** * Properties *)

(** ** [safeVisibility] *)

Example safeVisibility_upper :
  safeVisibility (JStr (str "PUBLIC")) = inr (str "public").
Proof. reflexivity. Qed.

Example safeVisibility_bogus :
  safeVisibility (JStr (str "friends")) = inr (str "private").
Proof. reflexivity. Qed.

Lemma safeVisibility_range v vis :
  safeVisibility v = inr vis → vis = str "public" ∨ vis = str "private".
Proof.
  unfold safeVisibility.
  destruct (call_string_method _ _ _) as [e|s]; [discriminate|].
  case_bool_decide as Hin; intros [= <-]; [|by right].
  apply elem_of_cons in Hin as [->|Hin]; [by left|].
  apply list_elem_of_singleton in Hin as ->. by right.
Qed.

Lemma safeVisibility_falsy v :
  truthy v = false → safeVisibility v = inr (str "private").
Proof. intros Hv. unfold safeVisibility, js_or. by rewrite Hv. Qed.

Lemma safeVisibility_string s :
  safeVisibility (JStr s) =
    inr (if bool_decide (s ≠ [] ∧ toLowerCase s = str "public")
         then str "public" else str "private").
Proof.
  unfold safeVisibility, js_or, call_string_method, truthy.
  destruct (decide (s = [])) as [->|Hs]; [reflexivity|].
  rewrite (bool_decide_eq_false_2 _ Hs). cbn [negb].
  generalize (toLowerCase s); intros l.
  rewrite (bool_decide_ext (s ≠ [] ∧ l = str "public") (l = str "public"))
    by (split; [tauto | done]).
  destruct (decide (l = str "public")) as [->|Hne]; [reflexivity|].
  rewrite (bool_decide_eq_false_2 _ Hne).
  case_bool_decide as Hin; [|reflexivity].
  apply elem_of_cons in Hin as [?|Hin]; [done|].
  apply list_elem_of_singleton in Hin. by rewrite Hin.
Qed.

Lemma safeVisibility_truthy v vis :
  safeVisibility v = inr vis → truthy (JStr vis) = true.
Proof. by intros [-> | ->]%safeVisibility_range. Qed.

Lemma safeVisibility_idem vis :
  vis = str "public" ∨ vis = str "private" → safeVisibility (JStr vis) = inr vis.
Proof. by intros [-> | ->]. Qed.

(** ** Running a handler body *)

Ltac run_body :=
  unfold item_read, item_delete, item_replace, items_create, items_query,
    createIfNotExists, uploadData, deleteIfExists, now, sdk;
  unfold try_catch, bind, lift, lift_at, ret, throw.

Ltac answered := cbn [fst status res_status_json res_json]; discriminate.

(** ** DELETE /files/:id *)

(** C10: when the point lookup finds nothing the answer is 404, the
    documents and the blobs are as before, and the read was the only call to
    a store. *)
Theorem delete_file_not_found env req w vis :
  safeVisibility (query_visibility req) = inr vis →
  fault env (calls w) = None →
  container w !! (params_id req, vis) = None →
  let r := delete_file env req w in
  fst r = res_status_json 404 (JsonError (str "Not found"))
  ∧ container (snd r) = container w
  ∧ blobContainer (snd r) = blobContainer w
  ∧ calls (snd r) = S (calls w).
Proof.
  intros Hvis Hread Hnone. unfold delete_file. run_body.
  rewrite Hvis, (safeVisibility_truthy _ _ Hvis). cbn [negb].
  rewrite Hread. cbn [container next_call]. rewrite Hnone.
  by cbn.
Qed.

Lemma delete_file_not_found_witness :
  let r := delete_file calm (request "a1" (JStr (str "private")) JUndefined JUndefined None) world1 in
  fst r = res_status_json 404 (JsonError (str "Not found"))
  ∧ container (snd r) = container world1
  ∧ blobContainer (snd r) = blobContainer world1
  ∧ calls (snd r) = S (calls world1).
Proof.
  apply (delete_file_not_found calm _ world1 (str "private")); reflexivity.
Defined.

(** C1, as stated, fails: the blob delete is awaited inside the [try], so its
    rejection reaches the [catch] and the answer is 500, although the document
    is already gone. *)
Lemma delete_file_blob_failure_surfaces :
  ¬ (∀ env req w vis d,
       safeVisibility (query_visibility req) = inr vis →
       container w !! (params_id req, vis) = Some d →
       fault env (calls w) = None →
       fault env (S (calls w)) = None →
       fst (delete_file env req w) = res_json (JsonDeleted (params_id req))).
Proof.
  intros H.
  specialize (H blob_outage delete_a1_public world1 (str "public") asset1
                eq_refl eq_refl eq_refl eq_refl).
  vm_compute in H. discriminate H.
Qed.

(** C1, amended: once the metadata delete has succeeded the document is gone;
    the answer is 200 with [{ deleted: true, id }] when no blob name is
    recorded or the blob delete succeeds, and a rejected blob delete is
    answered 500 with its message. *)
Theorem delete_file_found env req w vis d :
  safeVisibility (query_visibility req) = inr vis →
  container w !! (params_id req, vis) = Some d →
  fault env (calls w) = None →
  fault env (S (calls w)) = None →
  let r := delete_file env req w in
  container (snd r) = delete (params_id req, vis) (container w)
  ∧ if truthy (JStr (Asset.blobName d))
    then match fault env (S (S (calls w))) with
         | None =>
             fst r = res_json (JsonDeleted (params_id req))
             ∧ blobContainer (snd r) = delete (Asset.blobName d) (blobContainer w)
         | Some e =>
             fst r = res_status_json 500
                       (JsonError (message_or e (str "Failed to delete file")))
             ∧ blobContainer (snd r) = blobContainer w
         end
    else fst r = res_json (JsonDeleted (params_id req))
         ∧ blobContainer (snd r) = blobContainer w.
Proof.
  intros Hvis Hsome Hread Hdel. unfold delete_file. run_body.
  rewrite Hvis, (safeVisibility_truthy _ _ Hvis). cbn [negb].
  rewrite Hread. cbn [container next_call calls]. rewrite Hsome.
  cbn [container next_call calls]. rewrite Hdel.
  cbn [container next_call calls]. rewrite Hsome.
  cbn [container next_call calls set_container blobContainer].
  destruct (truthy (JStr (Asset.blobName d))); [|by cbn].
  cbn [container next_call calls set_container blobContainer].
  by destruct (fault env (S (S (calls w)))).
Qed.

Lemma delete_file_found_witness :
  let r := delete_file blob_outage delete_a1_public world1 in
  container (snd r) = delete (str "a1", str "public") (container world1)
  ∧ fst r = res_status_json 500 (JsonError (str "The operation timed out."))
  ∧ blobContainer (snd r) = blobContainer world1.
Proof.
  exact (delete_file_found blob_outage delete_a1_public world1 (str "public")
           asset1 eq_refl eq_refl eq_refl eq_refl).
Defined.

(** ** The visibility guard of PUT and DELETE *)

(** [if (!visibility)] never fires: [safeVisibility] has already put
    [private] in place of a missing value. *)
Lemma put_file_never_400 env req w : status (fst (put_file env req w)) ≠ 400.
Proof.
  unfold put_file. run_body.
  destruct (safeVisibility _) as [e|vis] eqn:Hvis; [answered|].
  destruct (call_string_method _ _ _) as [e|newTitle]; [answered|].
  rewrite (safeVisibility_truthy _ _ Hvis). cbn [negb].
  destruct (fault env (calls w)); [answered|].
  cbn [container next_call calls].
  destruct (container w !! _); [|answered].
  cbn [container next_call next_tick calls].
  destruct (fault env (S (calls w))); [answered|].
  cbn [container next_call next_tick calls].
  destruct (container w !! _); answered.
Qed.

Lemma delete_file_never_400 env req w : status (fst (delete_file env req w)) ≠ 400.
Proof.
  unfold delete_file. run_body.
  destruct (safeVisibility _) as [e|vis] eqn:Hvis; [answered|].
  rewrite (safeVisibility_truthy _ _ Hvis). cbn [negb].
  destruct (fault env (calls w)); [answered|].
  cbn [container next_call calls].
  destruct (container w !! _) as [d|] eqn:Hd; [|answered].
  cbn [container next_call calls].
  destruct (fault env (S (calls w))); [answered|].
  cbn [container next_call calls]. rewrite Hd.
  destruct (truthy _); [|answered].
  cbn [container set_container next_call calls].
  destruct (fault env (S (S (calls w)))); answered.
Qed.

(** C2: a PUT and a DELETE that carry no visibility at all are not answered
    400.  They are run against the [private] partition: 404 when the id is
    not there, and carried out when it is.  A visibility that is no string is
    not answered 400 either, but 500. *)
Theorem missing_visibility_not_rejected :
  fst (put_file calm (request "a1" JUndefined JUndefined (JStr (str "Renamed")) None) world1)
    = res_status_json 404 (JsonError (str "Not found"))
  ∧ fst (delete_file calm (request "a1" JUndefined JUndefined JUndefined None) world1)
    = res_status_json 404 (JsonError (str "Not found"))
  ∧ fst (put_file calm (request "a2" JUndefined JUndefined (JStr (str "Renamed")) None) world2)
    = res_json (JsonAsset (Asset.set_updatedAt 1700000000000
                             (Asset.set_title (str "Renamed") asset2)))
  ∧ delete_file calm (request "a2" JUndefined JUndefined JUndefined None) world2
    = (res_json (JsonDeleted (str "a2")),
       {| container := ∅; blobContainer := ∅; ticks := 0; calls := 3; draws := 0 |})
  ∧ fst (put_file calm (request "a1" twice JUndefined JUndefined None) world1)
    = res_status_json 500
        (JsonError (str "(v || " ++ quoted "private" ++ str ").toLowerCase is not a function"))
  ∧ fst (delete_file calm (request "a1" twice JUndefined JUndefined None) world1)
    = res_status_json 500
        (JsonError (str "(v || " ++ quoted "private" ++ str ").toLowerCase is not a function")).
Proof. repeat split; vm_compute; reflexivity. Qed.

(** ** GET /files/:id *)

Lemma get_file_read env req w vis :
  safeVisibility (query_visibility req) = inr vis →
  fault env (calls w) = None →
  fst (get_file env req w) =
    match container w !! (params_id req, vis) with
    | Some d => res_json (JsonAsset d)
    | None => res_status_json 404 (JsonError (str "Not found"))
    end.
Proof.
  intros Hvis Hread. unfold get_file. run_body.
  rewrite Hvis, Hread. cbn [container next_call].
  by destruct (container w !! _).
Qed.

(** C7: a point read is answered from the partition the request names and
    from no other.  An id that is only in another partition is answered 404,
    and the answer is 200 with a document exactly when that document is
    stored at (id, visibility). *)
Theorem get_file_partitioned env req w vis :
  safeVisibility (query_visibility req) = inr vis →
  fault env (calls w) = None →
  (∀ other d,
     other ≠ vis →
     container w !! (params_id req, other) = Some d →
     container w !! (params_id req, vis) = None →
     fst (get_file env req w) = res_status_json 404 (JsonError (str "Not found")))
  ∧ (∀ d,
       fst (get_file env req w) = res_json (JsonAsset d)
       ↔ container w !! (params_id req, vis) = Some d).
Proof.
  intros Hvis Hread. rewrite (get_file_read _ _ _ _ Hvis Hread). split.
  - intros other d _ _ ->. reflexivity.
  - intros d. destruct (container w !! _) as [d'|]; split;
      [intros [= ->] | intros [= ->] | discriminate | discriminate]; reflexivity.
Qed.

Lemma get_file_partitioned_witness :
  fst (get_file calm (request "a1" (JStr (str "private")) JUndefined JUndefined None) world1)
    = res_status_json 404 (JsonError (str "Not found"))
  ∧ fst (get_file calm (request "a1" (JStr (str "Public")) JUndefined JUndefined None) world1)
    = res_json (JsonAsset asset1).
Proof.
  split.
  - apply (get_file_partitioned calm
             (request "a1" (JStr (str "private")) JUndefined JUndefined None)
             world1 (str "private") eq_refl eq_refl)
      with (other := str "public") (d := asset1);
      [discriminate | reflexivity | reflexivity].
  - apply (get_file_partitioned calm
             (request "a1" (JStr (str "Public")) JUndefined JUndefined None)
             world1 (str "public") eq_refl eq_refl).
    reflexivity.
Defined.

(** ** GET /files *)

#[global] Instance newer_first_total : Total newer_first.
Proof. intros a b. unfold newer_first. lia. Qed.

#[global] Instance newer_first_trans : Transitive newer_first.
Proof. intros a b c. unfold newer_first. lia. Qed.

Lemma elem_of_documents w d :
  d ∈ documents w ↔ ∃ id pk, container w !! (id, pk) = Some d.
Proof.
  unfold documents. rewrite list_elem_of_fmap. split.
  - intros [[[id pk] d'] [-> Hin]]. exists id, pk. by apply elem_of_map_to_list.
  - intros (id & pk & Hin). exists ((id, pk), d). split; [done|].
    by apply elem_of_map_to_list.
Qed.

Lemma run_query_all m : run_query SelectAll m ≡ₚ (map_to_list m).*2.
Proof.
  unfold run_query. rewrite merge_sort_Permutation.
  induction ((map_to_list m).*2) as [|d l IH]; [done|].
  rewrite filter_cons_True by done. by rewrite IH.
Qed.

Lemma run_query_by_visibility v m :
  run_query (SelectByVisibility v) m
    ≡ₚ filter (λ d, Asset.visibility d = v) (map_to_list m).*2.
Proof.
  unfold run_query. rewrite merge_sort_Permutation.
  erewrite list_filter_iff; [done|].
  intros d. cbn. by rewrite bool_decide_eq_true.
Qed.

Lemma run_query_sorted q m : StronglySorted newer_first (run_query q m).
Proof. apply StronglySorted_merge_sort; apply _. Qed.

(** C8, amended: the list handler answers 200 with the documents of the
    normalised partition when a truthy (non-empty) visibility is given, and
    with the documents of every partition when none is given or the one
    given is falsy; either way the newest [createdAt] comes first. *)
Theorem get_files_listing env req w :
  fault env (calls w) = None →
  (∀ vis,
     truthy (query_visibility req) = true →
     safeVisibility (query_visibility req) = inr vis →
     ∃ L, fst (get_files env req w) = res_json (JsonAssets L)
          ∧ L ≡ₚ filter (λ d, Asset.visibility d = vis) (documents w)
          ∧ StronglySorted newer_first L)
  ∧ (truthy (query_visibility req) = false →
     ∃ L, fst (get_files env req w) = res_json (JsonAssets L)
          ∧ L ≡ₚ documents w
          ∧ StronglySorted newer_first L).
Proof.
  intros Hq. unfold get_files. run_body. split.
  - intros vis -> ->. rewrite Hq. cbn [container next_call fst].
    eexists. split; [reflexivity|].
    split; [apply run_query_by_visibility | apply run_query_sorted].
  - intros ->. rewrite Hq. cbn [container next_call fst].
    eexists. split; [reflexivity|].
    split; [apply run_query_all | apply run_query_sorted].
Qed.

Example get_files_public :
  fst (get_files calm (request "" (JStr (str "public")) JUndefined JUndefined None) world3)
    = res_json (JsonAssets [asset3; asset1]).
Proof. vm_compute. reflexivity. Qed.

Example get_files_everything :
  fst (get_files calm (request "" JUndefined JUndefined JUndefined None) world3)
    = res_json (JsonAssets [asset3; asset2; asset1]).
Proof. vm_compute. reflexivity. Qed.

Lemma get_files_listing_witness :
  (∃ L, fst (get_files calm (request "" (JStr (str "PUBLIC")) JUndefined JUndefined None) world3)
          = res_json (JsonAssets L)
        ∧ L ≡ₚ filter (λ d, Asset.visibility d = str "public") (documents world3)
        ∧ StronglySorted newer_first L)
  ∧ (∃ L, fst (get_files calm (request "" (JStr (str "friends")) JUndefined JUndefined None) world3)
            = res_json (JsonAssets L)
          ∧ L ≡ₚ filter (λ d, Asset.visibility d = str "private") (documents world3)
          ∧ StronglySorted newer_first L)
  ∧ (∃ L, fst (get_files calm (request "" JUndefined JUndefined JUndefined None) world3)
            = res_json (JsonAssets L)
          ∧ L ≡ₚ documents world3
          ∧ StronglySorted newer_first L)
  ∧ (∃ L, fst (get_files calm (request "" (JStr (str "")) JUndefined JUndefined None) world3)
            = res_json (JsonAssets L)
          ∧ L ≡ₚ documents world3
          ∧ StronglySorted newer_first L).
Proof.
  split; [|split; [|split]].
  - apply (proj1 (get_files_listing calm
                    (request "" (JStr (str "PUBLIC")) JUndefined JUndefined None)
                    world3 eq_refl) (str "public")); reflexivity.
  - apply (proj1 (get_files_listing calm
                    (request "" (JStr (str "friends")) JUndefined JUndefined None)
                    world3 eq_refl) (str "private")); reflexivity.
  - apply (proj2 (get_files_listing calm
                    (request "" JUndefined JUndefined JUndefined None)
                    world3 eq_refl)); reflexivity.
  - apply (proj2 (get_files_listing calm
                    (request "" (JStr (str "")) JUndefined JUndefined None)
                    world3 eq_refl)); reflexivity.
Defined.

Example get_files_normalised :
  fst (get_files calm (request "" (JStr (str "PUBLIC")) JUndefined JUndefined None) world3)
    = res_json (JsonAssets [asset3; asset1])
  ∧ fst (get_files calm (request "" (JStr (str "friends")) JUndefined JUndefined None) world3)
    = res_json (JsonAssets [asset2])
  ∧ fst (get_files calm (request "" (JStr (str "")) JUndefined JUndefined None) world3)
    = res_json (JsonAssets [asset3; asset2; asset1]).
Proof. repeat split; vm_compute; reflexivity. Qed.

(** C8, as stated, fails when "with a visibility filter" means that the
    request gives a value: the empty value of [GET /files?visibility=]
    normalises to [private], but [req.query.visibility ? ... : null] takes it
    for no filter and every partition is listed. *)
Lemma get_files_empty_filter_lists_all :
  ¬ (∀ env req w vis L,
       fault env (calls w) = None →
       query_visibility req ≠ JUndefined →
       safeVisibility (query_visibility req) = inr vis →
       fst (get_files env req w) = res_json (JsonAssets L) →
       L ≡ₚ filter (λ d, Asset.visibility d = vis) (documents w)).
Proof.
  intros H.
  assert (JStr (str "") ≠ JUndefined) as Hgiven by discriminate.
  specialize (H calm (request "" (JStr (str "")) JUndefined JUndefined None)
                world3 (str "private") [asset3; asset2; asset1]
                eq_refl Hgiven eq_refl eq_refl).
  apply Permutation_length in H. vm_compute in H. discriminate H.
Qed.

(** ** PUT /files/:id *)

(** C6, as stated, fails on the time stamp: [updatedAt] is overwritten with
    the reading of the local clock, whatever the stored value is.  Here the
    clock is behind the stored [updatedAt] (another instance wrote it, or the
    clock was stepped back) and the update moves [updatedAt] backwards. *)
Lemma put_file_updatedAt_not_strict :
  ¬ (∀ env req w vis old upd,
       safeVisibility (body_visibility req ||| query_visibility req) = inr vis →
       container w !! (params_id req, vis) = Some old →
       fst (put_file env req w) = res_json (JsonAsset upd) →
       Asset.updatedAt old < Asset.updatedAt upd).
Proof.
  intros H.
  specialize (H calm
                (request "a2" JUndefined (JStr (str "private")) (JStr (str "Final")) None)
                world2 (str "private") asset2
                (Asset.set_updatedAt 1700000000000 (Asset.set_title (str "Final") asset2))
                eq_refl eq_refl eq_refl).
  vm_compute in H. discriminate H.
Qed.

(** C6, amended: a successful update replaces the document at the same
    (id, visibility) by one that differs in [title] (only when a non-empty
    trimmed title is supplied) and in [updatedAt], which becomes the current
    clock reading; it is later than the stored one exactly when the clock
    reading is.  Every other field and the blobs are unchanged. *)
Theorem put_file_updates env req w vis newTitle old :
  safeVisibility (body_visibility req ||| query_visibility req) = inr vis →
  call_string_method "trim" trim (body_title req ||| JStr (str "")) = inr newTitle →
  container w !! (params_id req, vis) = Some old →
  fault env (calls w) = None →
  fault env (S (calls w)) = None →
  ∃ upd,
    fst (put_file env req w) = res_json (JsonAsset upd)
    ∧ container (snd (put_file env req w)) = <[(params_id req, vis) := upd]> (container w)
    ∧ blobContainer (snd (put_file env req w)) = blobContainer w
    ∧ Asset.title upd = (if bool_decide (newTitle = []) then Asset.title old else newTitle)
    ∧ Asset.updatedAt upd = clock env (ticks w)
    ∧ (Asset.updatedAt old < Asset.updatedAt upd ↔ Asset.updatedAt old < clock env (ticks w))
    ∧ Asset.id upd = Asset.id old
    ∧ Asset.visibility upd = Asset.visibility old
    ∧ Asset.fileName upd = Asset.fileName old
    ∧ Asset.mimeType upd = Asset.mimeType old
    ∧ Asset.size upd = Asset.size old
    ∧ Asset.blobName upd = Asset.blobName old
    ∧ Asset.blobUrl upd = Asset.blobUrl old
    ∧ Asset.createdAt upd = Asset.createdAt old.
Proof.
  intros Hvis Htitle Hold Hread Hreplace. unfold put_file. run_body.
  rewrite Hvis, Htitle, (safeVisibility_truthy _ _ Hvis). cbn [negb].
  rewrite Hread. cbn [container next_call next_tick calls]. rewrite Hold.
  cbn [container next_call next_tick calls ticks]. rewrite Hreplace.
  cbn [container next_call next_tick calls ticks]. rewrite Hold.
  cbn [fst snd container blobContainer set_container next_call next_tick].
  eexists. split; [reflexivity|]. split; [reflexivity|]. split; [reflexivity|].
  unfold truthy. destruct (bool_decide (newTitle = [])); cbn; tauto.
Qed.

Lemma put_file_updates_witness :
  ∃ upd,
    fst (put_file calm (request "a1" (JStr (str "public")) JUndefined (JStr (str "  Lecture 1 ")) None) world1)
      = res_json (JsonAsset upd)
    ∧ Asset.title upd = str "Lecture 1"
    ∧ Asset.updatedAt upd = 1700000000000
    ∧ Asset.createdAt upd = Asset.createdAt asset1.
Proof.
  destruct (put_file_updates calm
              (request "a1" (JStr (str "public")) JUndefined (JStr (str "  Lecture 1 ")) None)
              world1 (str "public") (str "Lecture 1") asset1
              eq_refl eq_refl eq_refl eq_refl eq_refl)
    as (upd & Hresp & _ & _ & Ht & Hu & _ & _ & _ & _ & _ & _ & _ & _ & Hc).
  exists upd. repeat split; assumption.
Defined.

(** ** POST /files *)

Lemma makeId_run env w : makeId env w = (inr (id_in env w), drawn 16 w).
Proof. unfold makeId, id_in, randomUUID. by destruct (hasRandomUUID env). Qed.

(** The document of an upload answered 201. *)
Lemma post_files_201 env req w d :
  fst (post_files env req w) = res_status_json 201 (JsonAsset d) →
  ∃ vis title f,
    safeVisibility (body_visibility req) = inr vis
    ∧ call_string_method "trim" trim
        (body_title req ||| file_originalname (file req) ||| JStr (str "Untitled"))
      = inr title
    ∧ file req = Some f
    ∧ let id := id_in env (next_call w) in
      let blobName := replace_ws (id ++ str "-" ++ File.originalname f) in
      d = Asset.mk id vis title (File.originalname f) (File.mimetype f)
            (File.size f) blobName (blobUrlOf env blobName)
            (clock env (ticks w)) (clock env (S (ticks w)))
      ∧ container (snd (post_files env req w)) = <[(id, vis) := d]> (container w)
      ∧ blobContainer (snd (post_files env req w))
        = <[blobName := {| content := File.buffer f;
                           blobContentType := File.mimetype f |}]> (blobContainer w).
Proof.
  unfold post_files. run_body.
  destruct (safeVisibility _) as [e|vis]; [intros [=]|].
  destruct (call_string_method _ _ _) as [e|title]; [intros [=]|].
  destruct (file req) as [f|]; [|intros [=]].
  destruct (fault env (calls w)); [intros [=]|].
  rewrite makeId_run.
  cbn [calls next_call drawn].
  destruct (fault env (S (calls w))); [intros [=]|].
  cbn [calls ticks next_call next_tick drawn set_blobContainer].
  destruct (fault env (S (S (calls w)))); [intros [=]|].
  cbn [calls ticks container next_call next_tick drawn set_blobContainer Asset.id Asset.visibility].
  destruct (container w !! _); [intros [=]|].
  cbn [fst snd container blobContainer set_container]. intros [= <-].
  exists vis, title, f. repeat split.
Qed.

(** *** Strings without whitespace *)

Lemma isWhiteSpace_printable c : (32 < c < 160)%N → isWhiteSpace c = false.
Proof.
  intros Hc. unfold isWhiteSpace. apply orb_false_intro.
  - apply bool_decide_eq_false. rewrite !elem_of_cons, elem_of_nil. lia.
  - apply andb_false_intro1. apply N.leb_gt. lia.
Qed.

Lemma hex_digit_clean d : (d < 16)%N → isWhiteSpace (hex_digit d) = false.
Proof.
  intros Hd. apply isWhiteSpace_printable. unfold hex_digit.
  destruct (N.ltb_spec d 10); cbn beta iota; lia.
Qed.

Lemma hex_clean bytes : Forall (λ b, (b < 256)%N) bytes → clean (hex bytes).
Proof.
  intros Hb. unfold clean, hex. apply Forall_bind.
  eapply Forall_impl; [exact Hb|]. intros b Hlt. cbv beta in Hlt. cbn.
  repeat constructor; apply hex_digit_clean.
  - apply N.Div0.div_lt_upper_bound. lia.
  - apply N.mod_lt. lia.
Qed.

Lemma hex_nonempty b bytes : hex (b :: bytes) ≠ [].
Proof. discriminate. Qed.

Lemma byte_cases (P : N → bool) :
  forallb P (N.of_nat <$> seq 0 256) = true → ∀ x, (x < 256)%N → P x = true.
Proof.
  intros HP x Hx. rewrite forallb_forall in HP. apply HP.
  apply in_map_iff. exists (N.to_nat x). split; [lia|]. apply in_seq. lia.
Qed.

Lemma uuid_clean bytes : Forall (λ b, (b < 256)%N) bytes → clean (uuid_of_bytes bytes).
Proof.
  intros Hb. unfold uuid_of_bytes.
  assert (Forall (λ b, (b < 256)%N)
            (alter (λ x, N.lor (N.land x 63) 128) 8%nat
               (alter (λ x, N.lor (N.land x 15) 64) 6%nat bytes))) as Hb'.
  { apply Forall_alter; [apply Forall_alter; [exact Hb|]|]; intros x _ Hx.
    - apply N.ltb_lt. revert x Hx.
      apply (byte_cases (λ x, N.lor (N.land x 15) 64 <? 256)%N). by vm_compute.
    - apply N.ltb_lt. revert x Hx.
      apply (byte_cases (λ x, N.lor (N.land x 63) 128 <? 256)%N). by vm_compute. }
  unfold clean. rewrite !Forall_app.
  repeat split;
    try (apply hex_clean; repeat (apply Forall_take || apply Forall_drop); exact Hb');
    by repeat constructor.
Qed.

Lemma uuid_nonempty bytes : uuid_of_bytes bytes ≠ [].
Proof.
  unfold uuid_of_bytes. intros H. apply app_eq_nil in H as [_ H]. discriminate H.
Qed.

Lemma drawn_bytes_bytes env w : Forall (λ b, (b < 256)%N) (drawn_bytes env w).
Proof.
  unfold drawn_bytes. apply Forall_fmap, Forall_forall. intros i _. cbn.
  apply N.mod_lt. lia.
Qed.

Lemma id_in_clean env w : clean (id_in env w).
Proof.
  unfold id_in. destruct (hasRandomUUID env);
    [apply uuid_clean | apply hex_clean]; apply drawn_bytes_bytes.
Qed.

Lemma id_in_nonempty env w : id_in env w ≠ [].
Proof.
  unfold id_in. destruct (hasRandomUUID env); [apply uuid_nonempty|].
  apply hex_nonempty.
Qed.

Lemma replace_ws_from_clean in_run s : clean (replace_ws_from in_run s).
Proof.
  revert in_run. induction s as [|c s IH]; intros in_run; cbn; [constructor|].
  destruct (isWhiteSpace c) eqn:Hc.
  - destruct in_run; [apply IH|]. constructor; [reflexivity | apply IH].
  - constructor; [exact Hc | apply IH].
Qed.

Lemma replace_ws_from_id s : clean s → replace_ws_from false s = s.
Proof.
  induction 1 as [|c s Hc _ IH]; cbn; [reflexivity|]. by rewrite Hc, IH.
Qed.

(** A whitespace-free, non-empty prefix is kept, and the replacement starts
    afresh after it. *)
Lemma replace_ws_from_prefix in_run p s :
  clean p → p ≠ [] → replace_ws_from in_run (p ++ s) = p ++ replace_ws s.
Proof.
  intros Hp. revert in_run. induction Hp as [|c p Hc Hp IH]; intros in_run Hne; [done|].
  cbn. rewrite Hc. f_equal.
  destruct p as [|c' p]; [reflexivity|]. by apply IH.
Qed.

(** *** The uploaded asset *)

Example post_files_no_file :
  fst (post_files calm (request "" JUndefined JUndefined (JStr (str "t")) None) world0)
    = res_status_json 400 (JsonError (str "Missing file")).
Proof. reflexivity. Qed.

(** An upload whose three awaited calls go through, with a free id, is
    answered 201. *)
Lemma post_files_created env req w vis title f :
  safeVisibility (body_visibility req) = inr vis →
  call_string_method "trim" trim
    (body_title req ||| file_originalname (file req) ||| JStr (str "Untitled"))
    = inr title →
  file req = Some f →
  fault env (calls w) = None →
  fault env (S (calls w)) = None →
  fault env (S (S (calls w))) = None →
  container w !! (id_in env (next_call w), vis) = None →
  status (fst (post_files env req w)) = 201.
Proof.
  intros Hvis Htitle Hfile H0 H1 H2 Hfree. unfold post_files. run_body.
  rewrite Hvis, Htitle, Hfile, H0, makeId_run.
  cbn [calls next_call drawn]. rewrite H1.
  cbn [calls ticks next_call next_tick drawn set_blobContainer]. rewrite H2.
  cbn [calls ticks container next_call next_tick drawn set_blobContainer
         Asset.id Asset.visibility].
  by rewrite Hfree.
Qed.

(** C3, as stated, fails on the time stamps: [createdAt] and [updatedAt] come
    from two separate [new Date()], and the clock can advance in between. *)
Lemma post_files_two_clock_readings :
  ¬ (∀ env req w d,
       fst (post_files env req w) = res_status_json 201 (JsonAsset d) →
       Asset.createdAt d = Asset.updatedAt d).
Proof.
  intros H.
  assert (∃ d, fst (post_files calm (upload_notes JUndefined JUndefined) world0)
               = res_status_json 201 (JsonAsset d)
               ∧ Asset.createdAt d ≠ Asset.updatedAt d) as (d & Hd & Hne).
  { eexists. split; [vm_compute; reflexivity|]. vm_compute. discriminate. }
  exact (Hne (H _ _ _ _ Hd)).
Qed.

(** C3, amended: the asset returned with 201 has a non-empty id and a
    visibility in {public, private}; [createdAt] is the clock reading taken
    first and [updatedAt] the one taken next, so the two are equal exactly
    when the clock did not advance between the readings. *)
Theorem post_files_asset env req w d :
  fst (post_files env req w) = res_status_json 201 (JsonAsset d) →
  Asset.id d ≠ []
  ∧ (Asset.visibility d = str "public" ∨ Asset.visibility d = str "private")
  ∧ Asset.createdAt d = clock env (ticks w)
  ∧ Asset.updatedAt d = clock env (S (ticks w))
  ∧ (Asset.createdAt d = Asset.updatedAt d
     ↔ clock env (ticks w) = clock env (S (ticks w))).
Proof.
  intros (vis & title & f & Hvis & _ & _ & -> & _)%post_files_201. cbn.
  split; [apply id_in_nonempty|].
  split; [by apply (safeVisibility_range (body_visibility req))|].
  done.
Qed.

Lemma post_files_asset_witness :
  ∃ d,
    fst (post_files calm (upload_notes JUndefined (JStr (str "Public"))) world0)
      = res_status_json 201 (JsonAsset d)
    ∧ Asset.id d ≠ []
    ∧ Asset.visibility d = str "public"
    ∧ Asset.createdAt d = 1700000000000
    ∧ Asset.updatedAt d = 1700000000001.
Proof.
  eexists. split; [vm_compute; reflexivity|].
  destruct (post_files_asset calm (upload_notes JUndefined (JStr (str "Public"))) world0 _ eq_refl)
    as (Hid & _ & Hc & Hu & _).
  split; [exact Hid|]. split; [reflexivity|]. split; [exact Hc | exact Hu].
Defined.

(** The title an upload stores: the first truthy one of the supplied title,
    the file name and [Untitled], trimmed afterwards. *)
Lemma post_files_title env req w d :
  fst (post_files env req w) = res_status_json 201 (JsonAsset d) →
  ∃ f s,
    file req = Some f
    ∧ body_title req ||| JStr (File.originalname f) ||| JStr (str "Untitled") = JStr s
    ∧ s ≠ []
    ∧ Asset.title d = trim s.
Proof.
  intros (vis & title & f & _ & Htitle & Hfile & -> & _)%post_files_201.
  rewrite Hfile in Htitle. cbn [file_originalname] in Htitle.
  exists f. unfold call_string_method in Htitle.
  destruct (_ ||| _ ||| _) as [| | | |s| |] eqn:Hs; try discriminate Htitle.
  injection Htitle as <-. exists s.
  split; [done|]. split; [done|]. split; [|done].
  intros ->. revert Hs. unfold js_or.
  destruct (truthy (body_title req)) eqn:Ht.
  - cbn. rewrite Ht. cbn. intros Hs. by rewrite Hs in Ht.
  - cbn. destruct (bool_decide (File.originalname f = [])) eqn:Hn; cbn.
    + discriminate.
    + intros [= Hs]. rewrite Hs in Hn. discriminate Hn.
Qed.

(** C4: a title of blanks is truthy, so no default replaces it, and the
    trimmed title that is stored (and returned) is the empty string. *)
Theorem post_files_blank_title :
  ∃ d,
    fst (post_files calm (upload_notes (JStr (str "   ")) JUndefined) world0)
      = res_status_json 201 (JsonAsset d)
    ∧ container (snd (post_files calm (upload_notes (JStr (str "   ")) JUndefined) world0))
        !! (Asset.id d, str "private") = Some d
    ∧ Asset.title d = str "".
Proof.
  eexists. split; [vm_compute; reflexivity|].
  split; vm_compute; reflexivity.
Qed.


Example post_files_blobName_spaces :
  ∃ d,
    fst (post_files calm
           (request "" JUndefined JUndefined JUndefined
              (Some (File.mk (str "my  lecture notes.pdf") (str "application/pdf") 3 [37; 80; 68]%N)))
           world0)
      = res_status_json 201 (JsonAsset d)
    ∧ Asset.blobName d = str "03142536-4758-497a-8b9c-adbecfe0f102-my_lecture_notes.pdf".
Proof. eexists. split; vm_compute; reflexivity. Qed.


(** ** The visibility rule across the handlers *)

Example safeVisibility_array :
  safeVisibility twice
    = inl (at_receiver safeVisibility_receiver (not_a_function "toLowerCase"))
  ∧ fst (get_file calm
           (request "a1" twice JUndefined JUndefined None) world1)
    = res_status_json 500
        (JsonError (str "(v || " ++ quoted "private" ++ str ").toLowerCase is not a function")).
Proof. split; reflexivity. Qed.

(** C5, as stated, fails twice.  The list handler does not normalise a falsy
    visibility to [private]: [req.query.visibility ? ... : null] drops it, and
    [GET /files?visibility=] lists every partition.  And a truthy value that
    is no string (a repeated query parameter arrives as an array) has no
    [toLowerCase]: [safeVisibility] throws instead of yielding a member of
    {public, private}. *)
Lemma visibility_rule_exceptions :
  ¬ (∀ env req w vis L,
       fault env (calls w) = None →
       safeVisibility (query_visibility req) = inr vis →
       fst (get_files env req w) = res_json (JsonAssets L) →
       Forall (λ d, Asset.visibility d = vis) L)
  ∧ ¬ (∀ v, ∃ vis, safeVisibility v = inr vis
                   ∧ (vis = str "public" ∨ vis = str "private")).
Proof.
  split; intros H.
  - specialize (H calm (request "" (JStr (str "")) JUndefined JUndefined None)
                  world3 (str "private") [asset3; asset2; asset1]
                  eq_refl eq_refl eq_refl).
    apply Forall_cons in H as [H _]. vm_compute in H. discriminate H.
  - destruct (H twice) as (vis & Hvis & _).
    discriminate Hvis.
Qed.

(** C5, amended: for a visibility that is absent, falsy or a string,
    [safeVisibility] yields a member of {public, private}: [private] when
    the value is falsy or lowercases to neither name, the lowercased value
    otherwise.  Create, read, delete and update see the request only through
    that normal form (update takes the body's value before the query's); the
    list handler does so for a truthy value and treats a falsy one as no
    filter. *)
Theorem safeVisibility_rule env req w v :
  truthy v = false ∨ (∃ s, v = JStr s) →
  ∃ vis,
    safeVisibility v = inr vis
    ∧ (vis = str "public" ∨ vis = str "private")
    ∧ (truthy v = false → vis = str "private")
    ∧ (∀ s, v = JStr s → toLowerCase s ∉ [str "public"; str "private"] →
         vis = str "private")
    ∧ (∀ s, v = JStr s → toLowerCase s ∈ [str "public"; str "private"] →
         vis = toLowerCase s)
    ∧ (body_visibility req = v →
       post_files env req w = post_files env (with_body_visibility (JStr vis) req) w)
    ∧ (query_visibility req = v →
       get_file env req w = get_file env (with_query_visibility (JStr vis) req) w)
    ∧ (query_visibility req = v →
       delete_file env req w = delete_file env (with_query_visibility (JStr vis) req) w)
    ∧ (body_visibility req ||| query_visibility req = v →
       put_file env req w = put_file env (with_body_visibility (JStr vis) req) w)
    ∧ (query_visibility req = v →
       get_files env req w
       = get_files env (with_query_visibility
                          (if truthy v then JStr vis else JUndefined) req) w).
Proof.
  intros Hv.
  assert (∃ vis, safeVisibility v = inr vis) as [vis Hvis].
  { destruct Hv as [Hf | [s ->]].
    - eexists. by apply safeVisibility_falsy.
    - eexists. apply safeVisibility_string. }
  exists vis.
  pose proof (safeVisibility_range _ _ Hvis) as Hrange.
  pose proof (safeVisibility_idem _ Hrange) as Hidem.
  pose proof (safeVisibility_truthy _ _ Hvis) as Htruthy.
  split; [exact Hvis|]. split; [exact Hrange|].
  split. { intros Hf. rewrite (safeVisibility_falsy _ Hf) in Hvis. by injection Hvis. }
  split.
  { intros s -> Hnot. revert Hvis. unfold safeVisibility, js_or, call_string_method.
    destruct (truthy (JStr s)) eqn:Hs.
    - rewrite (bool_decide_eq_false_2 _ Hnot). by intros [=].
    - by intros [=]. }
  split.
  { intros s -> Hin. revert Hvis. unfold safeVisibility, js_or, call_string_method.
    destruct (truthy (JStr s)) eqn:Hs.
    - rewrite (bool_decide_eq_true_2 _ Hin). by intros [=].
    - destruct s; [|discriminate Hs]. exfalso. revert Hin.
      rewrite !elem_of_cons, elem_of_nil. by intros [[=] | [[=] | []]]. }
  split. { intros Hreq. unfold post_files. cbn [body_visibility body_title file with_body_visibility].
           by rewrite Hreq, Hvis, Hidem. }
  split. { intros Hreq. unfold get_file. cbn [query_visibility params_id with_query_visibility].
           by rewrite Hreq, Hvis, Hidem. }
  split. { intros Hreq. unfold delete_file. cbn [query_visibility params_id with_query_visibility].
           by rewrite Hreq, Hvis, Hidem. }
  split. { intros Hreq. unfold put_file.
           cbn [body_visibility query_visibility body_title params_id with_body_visibility].
           assert (JStr vis ||| query_visibility req = JStr vis) as ->
             by (unfold js_or; by rewrite Htruthy).
           by rewrite Hreq, Hvis, Hidem. }
  intros Hreq. unfold get_files. cbn [query_visibility with_query_visibility].
  rewrite Hreq. destruct (truthy v) eqn:Ht.
  - by rewrite Htruthy, Hvis, Hidem.
  - reflexivity.
Qed.

Lemma safeVisibility_rule_witness :
  ∃ vis,
    safeVisibility (JStr (str "PUBLIC")) = inr vis
    ∧ vis = str "public"
    ∧ get_file calm (request "a1" (JStr (str "PUBLIC")) JUndefined JUndefined None) world1
      = get_file calm (request "a1" (JStr vis) JUndefined JUndefined None) world1.
Proof.
  destruct (safeVisibility_rule calm
              (request "a1" (JStr (str "PUBLIC")) JUndefined JUndefined None)
              world1 (JStr (str "PUBLIC")) (or_intror (ex_intro _ _ eq_refl)))
    as (vis & Hvis & _ & _ & _ & Hlow & _ & Hget & _).
  exists vis. split; [exact Hvis|]. split.
  - apply (Hlow _ eq_refl). vm_compute. apply list_elem_of_here.
  - apply Hget. reflexivity.
Defined.

(** * Further properties of the handlers *)

(** ** What each handler can do to the stores *)

Lemma get_file_cases env req w :
  container (snd (get_file env req w)) = container w
  ∧ blobContainer (snd (get_file env req w)) = blobContainer w
  ∧ (status (fst (get_file env req w)) = 200
     ∨ status (fst (get_file env req w)) = 404
     ∨ status (fst (get_file env req w)) = 500).
Proof.
  unfold get_file. run_body.
  destruct (safeVisibility _) as [e|vis]; [by auto|].
  destruct (fault env (calls w)); [by auto|].
  cbn [container next_call]. destruct (container w !! _); by auto.
Qed.

Lemma get_files_cases env req w :
  container (snd (get_files env req w)) = container w
  ∧ blobContainer (snd (get_files env req w)) = blobContainer w
  ∧ (status (fst (get_files env req w)) = 200
     ∨ status (fst (get_files env req w)) = 500).
Proof.
  unfold get_files. run_body.
  destruct (truthy _).
  - destruct (safeVisibility _) as [e|vis]; [by auto|].
    destruct (fault env (calls w)); by auto.
  - destruct (fault env (calls w)); by auto.
Qed.

Lemma put_file_cases env req w :
  blobContainer (snd (put_file env req w)) = blobContainer w
  ∧ ((container (snd (put_file env req w)) = container w
      ∧ (status (fst (put_file env req w)) = 404
         ∨ status (fst (put_file env req w)) = 500))
     ∨ ∃ vis newTitle old,
         safeVisibility (body_visibility req ||| query_visibility req) = inr vis
         ∧ call_string_method "trim" trim (body_title req ||| JStr (str "")) = inr newTitle
         ∧ container w !! (params_id req, vis) = Some old
         ∧ fst (put_file env req w)
           = res_json (JsonAsset (updated_doc newTitle (clock env (ticks w)) old))
         ∧ container (snd (put_file env req w))
           = <[(params_id req, vis) := updated_doc newTitle (clock env (ticks w)) old]>
               (container w)).
Proof.
  unfold put_file. run_body.
  destruct (safeVisibility _) as [e|vis] eqn:Hvis; [by auto|].
  destruct (call_string_method _ _ _) as [e|newTitle] eqn:Ht; [by auto|].
  rewrite (safeVisibility_truthy _ _ Hvis). cbn [negb].
  destruct (fault env (calls w)); [by auto|].
  cbn [container next_call calls].
  destruct (container w !! _) as [old|] eqn:Hold; [|by auto].
  cbn [container next_call next_tick calls ticks].
  destruct (fault env (S (calls w))); [by auto|].
  cbn [container next_call next_tick calls]. rewrite Hold.
  cbn [fst snd container blobContainer set_container next_call next_tick].
  split; [reflexivity|]. right. by exists vis, newTitle, old.
Qed.

Lemma delete_file_cases env req w :
  (container (snd (delete_file env req w)) = container w
   ∧ blobContainer (snd (delete_file env req w)) = blobContainer w
   ∧ (status (fst (delete_file env req w)) = 404
      ∨ status (fst (delete_file env req w)) = 500))
  ∨ ∃ vis d,
      safeVisibility (query_visibility req) = inr vis
      ∧ container w !! (params_id req, vis) = Some d
      ∧ container (snd (delete_file env req w)) = delete (params_id req, vis) (container w)
      ∧ ((status (fst (delete_file env req w)) = 500
          ∧ blobContainer (snd (delete_file env req w)) = blobContainer w)
         ∨ (fst (delete_file env req w) = res_json (JsonDeleted (params_id req))
            ∧ blobContainer (snd (delete_file env req w))
              = if truthy (JStr (Asset.blobName d))
                then delete (Asset.blobName d) (blobContainer w)
                else blobContainer w)).
Proof.
  unfold delete_file. run_body.
  destruct (safeVisibility _) as [e|vis] eqn:Hvis; [by auto|].
  rewrite (safeVisibility_truthy _ _ Hvis). cbn [negb].
  destruct (fault env (calls w)); [by auto|].
  cbn [container next_call calls].
  destruct (container w !! _) as [d|] eqn:Hd; [|by auto].
  cbn [container next_call calls].
  destruct (fault env (S (calls w))); [by auto|].
  cbn [container next_call calls]. rewrite Hd.
  right. exists vis, d. split; [done|]. split; [done|].
  destruct (truthy (JStr (Asset.blobName d))).
  - cbn [container set_container next_call calls].
    destruct (fault env (S (S (calls w)))); cbn; by auto.
  - cbn. by auto.
Qed.

Lemma post_files_cases env req w :
  (container (snd (post_files env req w)) = container w
   ∧ (status (fst (post_files env req w)) = 400
      ∨ status (fst (post_files env req w)) = 500)
   ∧ (blobContainer (snd (post_files env req w)) = blobContainer w
      ∨ ∃ f, file req = Some f
             ∧ blobContainer (snd (post_files env req w))
               = <[replace_ws (id_in env (next_call w) ++ str "-" ++ File.originalname f)
                   := blob_of f]> (blobContainer w)))
  ∨ ∃ d f,
      fst (post_files env req w) = res_status_json 201 (JsonAsset d)
      ∧ file req = Some f
      ∧ container w !! (Asset.id d, Asset.visibility d) = None
      ∧ container (snd (post_files env req w))
        = <[(Asset.id d, Asset.visibility d) := d]> (container w)
      ∧ blobContainer (snd (post_files env req w))
        = <[Asset.blobName d := blob_of f]> (blobContainer w).
Proof.
  unfold post_files. run_body.
  destruct (safeVisibility _) as [e|vis]; [by auto|].
  destruct (call_string_method _ _ _) as [e|title]; [by auto|].
  destruct (file req) as [f|]; [|by auto].
  destruct (fault env (calls w)); [by auto|].
  rewrite makeId_run.
  cbn [calls next_call drawn].
  destruct (fault env (S (calls w))); [by auto|].
  cbn [calls ticks next_call next_tick drawn set_blobContainer].
  destruct (fault env (S (S (calls w)))).
  { left. cbn. split; [done|]. split; [by auto|]. right. by exists f. }
  cbn [calls ticks container next_call next_tick drawn set_blobContainer
         Asset.id Asset.visibility].
  destruct (container w !! _) eqn:Hfree.
  { left. cbn. split; [done|]. split; [by auto|]. right. by exists f. }
  right. eexists _, f. cbn [fst snd container blobContainer set_container].
  split; [reflexivity|]. cbn [Asset.id Asset.visibility Asset.blobName]. by auto.
Qed.

(** X1: the two read handlers never write: whatever the request and whatever
    they answer, the documents and the blobs are as before. *)
Theorem reads_never_write env req w :
  container (snd (get_file env req w)) = container w
  ∧ blobContainer (snd (get_file env req w)) = blobContainer w
  ∧ container (snd (get_files env req w)) = container w
  ∧ blobContainer (snd (get_files env req w)) = blobContainer w.
Proof.
  destruct (get_file_cases env req w) as (? & ? & _).
  destruct (get_files_cases env req w) as (? & ? & _). done.
Qed.

(** X2: the status codes each handler can answer.  In particular the list
    handler never answers 404, and neither update nor delete answers 400. *)
Theorem handler_status_codes env req w :
  status (fst (post_files env req w)) ∈ [201; 400; 500]
  ∧ status (fst (get_files env req w)) ∈ [200; 500]
  ∧ status (fst (get_file env req w)) ∈ [200; 404; 500]
  ∧ status (fst (put_file env req w)) ∈ [200; 404; 500]
  ∧ status (fst (delete_file env req w)) ∈ [200; 404; 500].
Proof.
  repeat split.
  - destruct (post_files_cases env req w) as [(_ & [-> | ->] & _) | (d & f & -> & _)];
      cbn; set_solver.
  - destruct (get_files_cases env req w) as (_ & _ & [-> | ->]); set_solver.
  - destruct (get_file_cases env req w) as (_ & _ & [-> | [-> | ->]]); set_solver.
  - destruct (put_file_cases env req w)
      as (_ & [(_ & [-> | ->]) | (vis & t & old & _ & _ & _ & -> & _)]);
      cbn; set_solver.
  - destruct (delete_file_cases env req w)
      as [(_ & _ & [-> | ->]) | (vis & d & _ & _ & _ & [[-> _] | [-> _]])];
      cbn; set_solver.
Qed.

Lemma updated_doc_same_file newTitle t old : same_file (updated_doc newTitle t old) old.
Proof.
  unfold updated_doc, same_file. by destruct (truthy (JStr newTitle)).
Qed.

(** X3: whatever an update answers, it creates and removes no document,
    touches no blob, leaves the documents of other ids as they are, and
    changes at most [title] and [updatedAt] of a document. *)
Theorem put_file_frame env req w :
  blobContainer (snd (put_file env req w)) = blobContainer w
  ∧ dom (container (snd (put_file env req w))) = dom (container w)
  ∧ ∀ id pk d',
      container (snd (put_file env req w)) !! (id, pk) = Some d' →
      ∃ d, container w !! (id, pk) = Some d
           ∧ same_file d' d
           ∧ (id ≠ params_id req → d' = d).
Proof.
  destruct (put_file_cases env req w)
    as (Hb & [(-> & _) | (vis & t & old & _ & _ & Hold & _ & ->)]).
  - split; [exact Hb|]. split; [reflexivity|].
    intros id pk d' Hd'. exists d'. by repeat split.
  - split; [exact Hb|]. split.
    { apply dom_insert_lookup_L. by eexists. }
    intros id pk d'. destruct (decide ((params_id req, vis) = (id, pk))) as [[= <- <-] | Hne].
    + rewrite lookup_insert_eq. intros [= <-]. exists old.
      split; [exact Hold|]. split; [apply updated_doc_same_file | done].
    + rewrite lookup_insert_ne by exact Hne. intros Hd'. exists d'. by repeat split.
Qed.

(** X4: whatever a delete answers, it only removes: the documents and the
    blobs that remain were there before with the same content, documents of
    other ids all remain, and a blob can only go if it is the one named by a
    document stored under the requested id. *)
Theorem delete_file_only_removes env req w :
  container (snd (delete_file env req w)) ⊆ container w
  ∧ blobContainer (snd (delete_file env req w)) ⊆ blobContainer w
  ∧ (∀ id pk, id ≠ params_id req →
       container (snd (delete_file env req w)) !! (id, pk) = container w !! (id, pk))
  ∧ (∀ name,
       blobContainer (snd (delete_file env req w)) !! name ≠ blobContainer w !! name →
       ∃ pk d, container w !! (params_id req, pk) = Some d ∧ Asset.blobName d = name).
Proof.
  destruct (delete_file_cases env req w)
    as [(-> & -> & _) | (vis & d & _ & Hd & -> & Hblob)].
  - repeat split; try done. all: intros name Hne; by destruct Hne.
  - split; [apply delete_subseteq|].
    assert (blobContainer (snd (delete_file env req w)) = blobContainer w
            ∨ blobContainer (snd (delete_file env req w))
              = delete (Asset.blobName d) (blobContainer w)) as [-> | ->].
    { destruct Hblob as [[_ ->] | [_ ->]]; [by left|].
      destruct (truthy _); by auto. }
    + split; [done|]. split.
      * intros id pk Hne. apply lookup_delete_ne. congruence.
      * intros name Hne. by destruct Hne.
    + split; [apply delete_subseteq|]. split.
      * intros id pk Hne. apply lookup_delete_ne. congruence.
      * intros name Hne. exists vis, d. split; [exact Hd|].
        destruct (decide (Asset.blobName d = name)) as [|Hn]; [done|].
        destruct Hne. by apply lookup_delete_ne.
Qed.

(** X5: whatever an upload answers, it removes and alters no document; it
    adds one exactly when it answers 201, and then exactly one. *)
Theorem post_files_only_adds env req w :
  container w ⊆ container (snd (post_files env req w))
  ∧ (status (fst (post_files env req w)) = 201
     ↔ container (snd (post_files env req w)) ≠ container w)
  ∧ (status (fst (post_files env req w)) = 201 →
     size (container (snd (post_files env req w))) = S (size (container w))).
Proof.
  destruct (post_files_cases env req w)
    as [(-> & Hst & _) | (d & f & -> & _ & Hfree & -> & _)].
  - split; [done|]. split; [|destruct Hst as [-> | ->]; discriminate].
    split; [destruct Hst as [-> | ->]; discriminate | done].
  - split; [by apply insert_subseteq|]. split; [|intros _; by apply map_size_insert_None].
    split; [|done]. intros _ Heq.
    assert (<[(Asset.id d, Asset.visibility d) := d]> (container w)
              !! (Asset.id d, Asset.visibility d) = Some d) as Hl by apply lookup_insert_eq.
    rewrite Heq, Hfree in Hl. discriminate Hl.
Qed.

(** ** The store invariant *)

Lemma post_files_201_keyed env req w d :
  fst (post_files env req w) = res_status_json 201 (JsonAsset d) →
  Asset.visibility d = str "public" ∨ Asset.visibility d = str "private".
Proof.
  intros (vis & title & f & Hvis & _ & _ & -> & _)%post_files_201.
  by apply (safeVisibility_range (body_visibility req)).
Qed.

(** X6: every handler keeps the documents well keyed: if each stored
    document sits at its own (id, visibility) with a visibility of public or
    private, this is still so after any request, whatever the answer. *)
Theorem handlers_keep_well_keyed env req w :
  well_keyed (container w) →
  well_keyed (container (snd (post_files env req w)))
  ∧ well_keyed (container (snd (get_files env req w)))
  ∧ well_keyed (container (snd (get_file env req w)))
  ∧ well_keyed (container (snd (put_file env req w)))
  ∧ well_keyed (container (snd (delete_file env req w))).
Proof.
  intros Hw. split; [|split; [|split; [|split]]].
  - destruct (post_files_cases env req w)
      as [(-> & _) | (d & f & Hd & _ & _ & -> & _)]; [exact Hw|].
    apply map_Forall_insert_2; [|exact Hw].
    split; [reflexivity | by apply (post_files_201_keyed env req w)].
  - by destruct (get_files_cases env req w) as (-> & _).
  - by destruct (get_file_cases env req w) as (-> & _).
  - destruct (put_file_cases env req w)
      as (_ & [(-> & _) | (vis & t & old & _ & _ & Hold & _ & ->)]); [exact Hw|].
    apply map_Forall_insert_2; [|exact Hw].
    destruct (map_Forall_lookup_1 _ _ _ _ Hw Hold) as [Hk Hv].
    destruct (updated_doc_same_file t (clock env (ticks w)) old) as (-> & -> & _).
    by split.
  - destruct (delete_file_cases env req w)
      as [(-> & _) | (vis & d & _ & _ & -> & _)]; [exact Hw|].
    by apply map_Forall_delete.
Qed.

Lemma handlers_keep_well_keyed_witness :
  well_keyed (container (snd (post_files calm (upload_notes JUndefined JUndefined) world1)))
  ∧ well_keyed (container (snd (put_file calm
                                  (request "a1" (JStr (str "public")) JUndefined
                                     (JStr (str "Week 1")) None) world1))).
Proof.
  assert (well_keyed (container world1)) as Hw.
  { apply map_Forall_singleton. split; [reflexivity | by left]. }
  split.
  - apply (handlers_keep_well_keyed calm (upload_notes JUndefined JUndefined) world1 Hw).
  - apply (handlers_keep_well_keyed calm
             (request "a1" (JStr (str "public")) JUndefined (JStr (str "Week 1")) None)
             world1 Hw).
Defined.

(** ** Values the string methods cannot take *)

Lemma safeVisibility_defined v :
  falsy_or_string v ↔ ∃ vis, safeVisibility v = inr vis.
Proof.
  split.
  - intros [Hf | [s ->]].
    + eexists. by apply safeVisibility_falsy.
    + eexists. apply safeVisibility_string.
  - intros [vis Hvis]. destruct (truthy v) eqn:Ht; [|by left]. right.
    revert Hvis. unfold safeVisibility, js_or. rewrite Ht.
    destruct v; try discriminate. by eexists.
Qed.

Lemma safeVisibility_throws v :
  ¬ falsy_or_string v →
  safeVisibility v = inl (at_receiver safeVisibility_receiver (not_a_function "toLowerCase")).
Proof.
  intros Hn. destruct (safeVisibility v) as [e|vis] eqn:Hv.
  - revert Hv. unfold safeVisibility.
    destruct (call_string_method _ _ _) as [e'|s] eqn:Hc.
    + intros [= <-]. revert Hc. unfold call_string_method.
      by destruct (_ ||| _); intros [= <-].
    + by destruct (bool_decide _).
  - destruct Hn. apply safeVisibility_defined. by eexists.
Qed.

Lemma string_method_default name m v s0 :
  call_string_method name m (v ||| JStr s0)
  = if truthy v
    then match v with JStr s => inr (m s) | _ => inl (not_a_function name) end
    else inr (m s0).
Proof. unfold js_or. by destruct (truthy v). Qed.

Lemma string_method_defined name m v s0 :
  falsy_or_string v ↔ ∃ s, call_string_method name m (v ||| JStr s0) = inr s.
Proof.
  rewrite string_method_default. split.
  - intros [-> | [s ->]]; [by eexists|]. destruct (truthy (JStr s)); by eexists.
  - intros [s Hs]. destruct (truthy v) eqn:Ht; [|by left]. right.
    destruct v; try discriminate. by eexists.
Qed.

Lemma string_method_throws name m v s0 :
  ¬ falsy_or_string v →
  call_string_method name m (v ||| JStr s0) = inl (not_a_function name).
Proof.
  intros Hn. rewrite string_method_default.
  destruct (truthy v) eqn:Ht; [|destruct Hn; by left].
  destruct v; try reflexivity. destruct Hn. right. by eexists.
Qed.

(** The title chain of the upload with its two defaults. *)
Lemma post_title_chain bt f :
  bt ||| file_originalname f ||| JStr (str "Untitled")
  = bt ||| (file_originalname f ||| JStr (str "Untitled")).
Proof. unfold js_or. destruct (truthy bt) eqn:Ht; [by rewrite Ht | done]. Qed.

Lemma post_title_default f :
  ∃ s, file_originalname f ||| JStr (str "Untitled") = JStr s.
Proof.
  unfold js_or. destruct (truthy (file_originalname f)) eqn:Ht; [|by eexists].
  destruct f; [by eexists | discriminate].
Qed.

(** ** POST /files: the paths that store no document *)

(** X7: an upload without a file part calls no store and leaves the world as
    it is; it is answered 400 [Missing file] exactly when the visibility and
    the title are each falsy or a string, and 500 otherwise (they are
    normalised before the file is looked at). *)
Theorem post_files_without_file env req w :
  file req = None →
  snd (post_files env req w) = w
  ∧ (fst (post_files env req w) = res_status_json 400 (JsonError (str "Missing file"))
     ↔ falsy_or_string (body_visibility req) ∧ falsy_or_string (body_title req))
  ∧ (status (fst (post_files env req w)) = 400
     ∨ status (fst (post_files env req w)) = 500).
Proof.
  intros Hfile. unfold post_files. run_body. rewrite Hfile.
  rewrite post_title_chain. cbn [file_originalname].
  assert (JUndefined ||| JStr (str "Untitled") = JStr (str "Untitled")) as -> by reflexivity.
  destruct (safeVisibility (body_visibility req)) as [e|vis] eqn:Hvis.
  { split; [reflexivity|]. split; [|by right]. split; [discriminate|].
    intros [[vis Hv]%safeVisibility_defined _]. congruence. }
  destruct (call_string_method _ _ _) as [e|title] eqn:Ht.
  { split; [reflexivity|]. split; [|by right]. split; [discriminate|].
    intros [_ [s Hs]%(string_method_defined "trim" trim _ (str "Untitled"))]. congruence. }
  split; [reflexivity|]. split; [|by left]. split; [|reflexivity].
  intros _. split.
  - apply safeVisibility_defined. by eexists.
  - apply (string_method_defined "trim" trim _ (str "Untitled")). by eexists.
Qed.

Lemma post_files_without_file_witness :
  snd (post_files calm (request "" JUndefined (JStr (str "public")) (JNum 7) None) world1)
    = world1
  ∧ status (fst (post_files calm (request "" JUndefined (JStr (str "public")) (JNum 7) None)
                   world1)) = 500
  ∧ fst (post_files calm (request "" JUndefined (JStr (str "public")) (JStr (str "t")) None)
           world1)
    = res_status_json 400 (JsonError (str "Missing file")).
Proof.
  split; [|split].
  - apply (post_files_without_file calm
             (request "" JUndefined (JStr (str "public")) (JNum 7) None) world1 eq_refl).
  - reflexivity.
  - apply (post_files_without_file calm
             (request "" JUndefined (JStr (str "public")) (JStr (str "t")) None)
             world1 eq_refl).
    split; right; eexists; reflexivity.
Defined.

(** X8: a visibility or a title that is truthy but no string (an array, an
    object, a number, [true]) makes the handler that reads it answer 500
    before any store is called: the world is exactly as before. *)
Theorem non_string_field_rejected env req w v :
  ¬ falsy_or_string v →
  (body_visibility req = v ∨ body_title req = v →
     status (fst (post_files env req w)) = 500 ∧ snd (post_files env req w) = w)
  ∧ (query_visibility req = v →
     status (fst (get_files env req w)) = 500 ∧ snd (get_files env req w) = w)
  ∧ (query_visibility req = v →
     status (fst (get_file env req w)) = 500 ∧ snd (get_file env req w) = w)
  ∧ (body_visibility req ||| query_visibility req = v ∨ body_title req = v →
     status (fst (put_file env req w)) = 500 ∧ snd (put_file env req w) = w)
  ∧ (query_visibility req = v →
     status (fst (delete_file env req w)) = 500 ∧ snd (delete_file env req w) = w).
Proof.
  intros Hn.
  assert (truthy v = true) as Htruthy.
  { destruct (truthy v) eqn:Ht; [done|]. destruct Hn. by left. }
  split; [|split; [|split; [|split]]].
  - intros Hv. unfold post_files. run_body.
    destruct (safeVisibility (body_visibility req)) as [e|vis] eqn:Hvis; [done|].
    destruct Hv as [Hv | Hv].
    { rewrite Hv, (safeVisibility_throws _ Hn) in Hvis. discriminate Hvis. }
    rewrite post_title_chain.
    destruct (post_title_default (file req)) as [s ->].
    by rewrite Hv, (string_method_throws _ _ _ _ Hn).
  - intros Hv. unfold get_files. run_body.
    by rewrite Hv, Htruthy, (safeVisibility_throws _ Hn).
  - intros Hv. unfold get_file. run_body.
    by rewrite Hv, (safeVisibility_throws _ Hn).
  - intros Hv. unfold put_file. run_body.
    destruct (safeVisibility _) as [e|vis] eqn:Hvis; [done|].
    destruct Hv as [Hv | Hv].
    { rewrite Hv, (safeVisibility_throws _ Hn) in Hvis. discriminate Hvis. }
    by rewrite Hv, (string_method_throws _ _ _ _ Hn).
  - intros Hv. unfold delete_file. run_body.
    by rewrite Hv, (safeVisibility_throws _ Hn).
Qed.

Lemma not_falsy_or_string_twice : ¬ falsy_or_string twice.
Proof. intros [Hf | [s Hs]]; discriminate. Qed.

Lemma non_string_field_rejected_witness :
  status (fst (put_file calm (request "a1" JUndefined (JStr (str "public")) twice None)
                 world1)) = 500
  ∧ snd (put_file calm (request "a1" JUndefined (JStr (str "public")) twice None) world1)
    = world1.
Proof.
  apply (non_string_field_rejected calm
           (request "a1" JUndefined (JStr (str "public")) twice None) world1 twice
           not_falsy_or_string_twice).
  right. reflexivity.
Defined.

(** X9: when the blob has been written and the insert of the document then
    fails (the call is rejected, or the id is taken in that partition), the
    upload is answered 500 and nothing is rolled back: no document is stored
    and the blob stays in the blob container. *)
Theorem post_files_orphaned_blob env req w vis title f :
  safeVisibility (body_visibility req) = inr vis →
  call_string_method "trim" trim
    (body_title req ||| file_originalname (file req) ||| JStr (str "Untitled"))
    = inr title →
  file req = Some f →
  fault env (calls w) = None →
  fault env (S (calls w)) = None →
  is_Some (fault env (S (S (calls w))))
  ∨ is_Some (container w !! (id_in env (next_call w), vis)) →
  status (fst (post_files env req w)) = 500
  ∧ container (snd (post_files env req w)) = container w
  ∧ blobContainer (snd (post_files env req w))
      !! replace_ws (id_in env (next_call w) ++ str "-" ++ File.originalname f)
    = Some (blob_of f).
Proof.
  intros Hvis Htitle Hfile H0 H1 Hfail. unfold post_files. run_body.
  rewrite Hvis, Htitle, Hfile, H0, makeId_run.
  cbn [calls next_call drawn]. rewrite H1.
  cbn [calls ticks next_call next_tick drawn set_blobContainer].
  destruct (fault env (S (S (calls w)))) as [e|] eqn:H2.
  { cbn. split; [done|]. split; [done|]. apply lookup_insert_eq. }
  destruct Hfail as [[e He] | [d Hd]]; [discriminate He|].
  cbn [calls ticks container next_call next_tick drawn set_blobContainer
         Asset.id Asset.visibility].
  rewrite Hd. cbn. split; [done|]. split; [done|]. apply lookup_insert_eq.
Qed.

Lemma post_files_orphaned_blob_witness :
  status (fst (post_files third_call_fails (upload_notes JUndefined JUndefined) world0)) = 500
  ∧ container (snd (post_files third_call_fails (upload_notes JUndefined JUndefined) world0))
    = ∅
  ∧ blobContainer (snd (post_files third_call_fails (upload_notes JUndefined JUndefined) world0))
      !! replace_ws (id_in third_call_fails (next_call world0) ++ str "-"
                       ++ File.originalname notes_pdf)
    = Some (blob_of notes_pdf).
Proof.
  apply (post_files_orphaned_blob third_call_fails (upload_notes JUndefined JUndefined)
           world0 (str "private") (str "notes.pdf") notes_pdf
           eq_refl eq_refl eq_refl eq_refl eq_refl).
  left. vm_compute. eexists. reflexivity.
Defined.

(** ** Requests in sequence *)

Lemma put_file_200 env req w upd :
  fst (put_file env req w) = res_json (JsonAsset upd) →
  ∃ vis old,
    safeVisibility (body_visibility req ||| query_visibility req) = inr vis
    ∧ container w !! (params_id req, vis) = Some old
    ∧ same_file upd old
    ∧ container (snd (put_file env req w)) = <[(params_id req, vis) := upd]> (container w).
Proof.
  intros Hr.
  destruct (put_file_cases env req w)
    as (_ & [(_ & Hst) | (vis & t & old & Hvis & _ & Hold & Hfst & Hc)]).
  - rewrite Hr in Hst. by destruct Hst.
  - rewrite Hr in Hfst. injection Hfst as ->.
    exists vis, old. by auto using updated_doc_same_file.
Qed.

Lemma delete_file_200 env req w :
  fst (delete_file env req w) = res_json (JsonDeleted (params_id req)) →
  ∃ vis d,
    safeVisibility (query_visibility req) = inr vis
    ∧ container w !! (params_id req, vis) = Some d
    ∧ container (snd (delete_file env req w)) = delete (params_id req, vis) (container w).
Proof.
  intros Hr.
  destruct (delete_file_cases env req w)
    as [(_ & _ & Hst) | (vis & d & Hvis & Hd & Hc & _)].
  - rewrite Hr in Hst. by destruct Hst.
  - by exists vis, d.
Qed.

Lemma delete_file_run env req w vis d :
  safeVisibility (query_visibility req) = inr vis →
  container w !! (params_id req, vis) = Some d →
  fault env (calls w) = None →
  fault env (S (calls w)) = None →
  fault env (S (S (calls w))) = None →
  fst (delete_file env req w) = res_json (JsonDeleted (params_id req))
  ∧ container (snd (delete_file env req w)) = delete (params_id req, vis) (container w)
  ∧ blobContainer (snd (delete_file env req w))
    = if truthy (JStr (Asset.blobName d))
      then delete (Asset.blobName d) (blobContainer w)
      else blobContainer w.
Proof.
  intros Hvis Hd H0 H1 H2. unfold delete_file. run_body.
  rewrite Hvis, (safeVisibility_truthy _ _ Hvis). cbn [negb].
  rewrite H0. cbn [container next_call calls]. rewrite Hd.
  cbn [container next_call calls]. rewrite H1.
  cbn [container next_call calls]. rewrite Hd.
  cbn [container next_call calls set_container blobContainer].
  destruct (truthy (JStr (Asset.blobName d))); [|by cbn].
  cbn [container next_call calls set_container blobContainer]. by rewrite H2.
Qed.

Lemma get_files_run env req w :
  fault env (calls w) = None →
  (truthy (query_visibility req) = false →
     fst (get_files env req w) = res_json (JsonAssets (run_query SelectAll (container w))))
  ∧ (∀ vis, truthy (query_visibility req) = true →
       safeVisibility (query_visibility req) = inr vis →
       fst (get_files env req w)
       = res_json (JsonAssets (run_query (SelectByVisibility vis) (container w)))).
Proof.
  intros H0. unfold get_files. run_body. split.
  - intros ->. by rewrite H0.
  - intros vis -> ->. by rewrite H0.
Qed.

Lemma documents_insert w w' k d :
  container w !! k = None →
  container w' = <[k := d]> (container w) →
  documents w' ≡ₚ d :: documents w.
Proof.
  intros Hfree Hc. unfold documents. rewrite Hc.
  by rewrite map_to_list_insert.
Qed.

Lemma blobName_split env w name :
  replace_ws (id_in env w ++ str "-" ++ name)
  = id_in env w ++ str "-" ++ replace_ws name.
Proof.
  unfold replace_ws at 1. rewrite app_assoc.
  rewrite replace_ws_from_prefix; [by rewrite <- app_assoc| |].
  - apply Forall_app. split; [apply id_in_clean | by repeat constructor].
  - intros [_ [=]]%app_eq_nil.
Qed.

(** X10: a document uploaded with 201 is what a following point read
    returns when the read names the document's id and a visibility that
    normalises to the document's; a read that normalises to another
    partition, where the id was not stored, is answered 404. *)
Theorem read_after_upload env req w d req' vis :
  fst (post_files env req w) = res_status_json 201 (JsonAsset d) →
  params_id req' = Asset.id d →
  safeVisibility (query_visibility req') = inr vis →
  fault env (calls (snd (post_files env req w))) = None →
  (vis = Asset.visibility d →
     fst (get_file env req' (snd (post_files env req w))) = res_json (JsonAsset d))
  ∧ (vis ≠ Asset.visibility d →
     container w !! (Asset.id d, vis) = None →
     fst (get_file env req' (snd (post_files env req w)))
     = res_status_json 404 (JsonError (str "Not found"))).
Proof.
  intros Hpost Hid Hvis Hread.
  rewrite (get_file_read _ _ _ _ Hvis Hread), Hid.
  destruct (post_files_cases env req w)
    as [(_ & Hst & _) | (d' & f & Hd' & _ & _ & -> & _)].
  { rewrite Hpost in Hst. by destruct Hst. }
  rewrite Hpost in Hd'. injection Hd' as <-. split.
  - intros ->. by rewrite lookup_insert_eq.
  - intros Hne Hnone. rewrite lookup_insert_ne by congruence. by rewrite Hnone.
Qed.

Lemma read_after_upload_witness :
  ∃ d,
    fst (post_files calm (upload_notes JUndefined (JStr (str "Public"))) world0)
      = res_status_json 201 (JsonAsset d)
    ∧ fst (get_file calm (read_request (Asset.id d) (str "PUBLIC"))
             (snd (post_files calm (upload_notes JUndefined (JStr (str "Public"))) world0)))
      = res_json (JsonAsset d)
    ∧ fst (get_file calm (read_request (Asset.id d) (str ""))
             (snd (post_files calm (upload_notes JUndefined (JStr (str "Public"))) world0)))
      = res_status_json 404 (JsonError (str "Not found")).
Proof.
  eexists. split; [vm_compute; reflexivity|]. split.
  - apply (proj1 (read_after_upload calm (upload_notes JUndefined (JStr (str "Public")))
                    world0 _ (read_request _ (str "PUBLIC"))
                    (str "public") eq_refl eq_refl eq_refl eq_refl)).
    reflexivity.
  - apply (proj2 (read_after_upload calm (upload_notes JUndefined (JStr (str "Public")))
                    world0 _ (read_request _ (str ""))
                    (str "private") eq_refl eq_refl eq_refl eq_refl));
      [discriminate | reflexivity].
Defined.

(** X11: after an upload answered 201, the list handler returns the
    documents that were there before together with the new one (those of
    them in the requested partition when a visibility is given), newest
    [createdAt] first. *)
Theorem list_after_upload env req w d req' :
  fst (post_files env req w) = res_status_json 201 (JsonAsset d) →
  fault env (calls (snd (post_files env req w))) = None →
  (truthy (query_visibility req') = false →
     ∃ L, fst (get_files env req' (snd (post_files env req w))) = res_json (JsonAssets L)
          ∧ L ≡ₚ d :: documents w
          ∧ StronglySorted newer_first L)
  ∧ (∀ vis, truthy (query_visibility req') = true →
       safeVisibility (query_visibility req') = inr vis →
       ∃ L, fst (get_files env req' (snd (post_files env req w))) = res_json (JsonAssets L)
            ∧ L ≡ₚ filter (λ x, Asset.visibility x = vis) (d :: documents w)
            ∧ StronglySorted newer_first L).
Proof.
  intros Hpost Hq.
  destruct (post_files_cases env req w)
    as [(_ & Hst & _) | (d' & f & Hd' & _ & Hfree & Hc & _)].
  { rewrite Hpost in Hst. by destruct Hst. }
  rewrite Hpost in Hd'. injection Hd' as <-.
  pose proof (documents_insert w _ _ _ Hfree Hc) as Hdocs.
  destruct (get_files_run env req' _ Hq) as [Hall Hby]. split.
  - intros Ht. eexists. split; [by apply Hall|].
    split; [|apply run_query_sorted]. by rewrite run_query_all.
  - intros vis Ht Hvis. eexists. split; [by apply Hby|].
    split; [|apply run_query_sorted].
    rewrite run_query_by_visibility. by apply filter_Permutation.
Qed.

Lemma list_after_upload_witness :
  ∃ d L,
    fst (post_files calm (upload_notes JUndefined JUndefined) world1)
      = res_status_json 201 (JsonAsset d)
    ∧ fst (get_files calm (request "" JUndefined JUndefined JUndefined None)
             (snd (post_files calm (upload_notes JUndefined JUndefined) world1)))
      = res_json (JsonAssets L)
    ∧ L ≡ₚ d :: documents world1.
Proof.
  eexists.
  destruct (proj1 (list_after_upload calm (upload_notes JUndefined JUndefined) world1 _
                     (request "" JUndefined JUndefined JUndefined None) eq_refl eq_refl)
              eq_refl) as (L & HL & Hperm & _).
  exists L. split; [reflexivity|]. by split.
Defined.

(** X12: once a delete has answered [{ deleted: true, id }], a read or a
    second delete of the same id in the same partition is answered 404. *)
Theorem gone_after_delete env req w req' :
  fst (delete_file env req w) = res_json (JsonDeleted (params_id req)) →
  params_id req' = params_id req →
  safeVisibility (query_visibility req') = safeVisibility (query_visibility req) →
  fault env (calls (snd (delete_file env req w))) = None →
  fst (get_file env req' (snd (delete_file env req w)))
    = res_status_json 404 (JsonError (str "Not found"))
  ∧ fst (delete_file env req' (snd (delete_file env req w)))
    = res_status_json 404 (JsonError (str "Not found")).
Proof.
  intros (vis & d & Hvis & _ & Hc)%delete_file_200 Hid Hsame Hread.
  rewrite <- Hsame in Hvis. split.
  - rewrite (get_file_read _ _ _ _ Hvis Hread), Hc, Hid. by rewrite lookup_delete_eq.
  - unfold delete_file at 1. run_body.
    rewrite Hvis, (safeVisibility_truthy _ _ Hvis). cbn [negb].
    rewrite Hread. cbn [container next_call]. rewrite Hc, Hid.
    by rewrite lookup_delete_eq.
Qed.

Lemma gone_after_delete_witness :
  fst (get_file calm delete_a1_public (snd (delete_file calm delete_a1_public world1)))
    = res_status_json 404 (JsonError (str "Not found"))
  ∧ fst (delete_file calm delete_a1_public (snd (delete_file calm delete_a1_public world1)))
    = res_status_json 404 (JsonError (str "Not found")).
Proof.
  apply (gone_after_delete calm delete_a1_public world1 delete_a1_public
           eq_refl eq_refl eq_refl eq_refl).
Defined.

(** X13: the document an update answers with 200 is what a following point
    read of the same id and partition returns. *)
Theorem read_after_update env req w upd req' :
  fst (put_file env req w) = res_json (JsonAsset upd) →
  params_id req' = params_id req →
  safeVisibility (query_visibility req')
    = safeVisibility (body_visibility req ||| query_visibility req) →
  fault env (calls (snd (put_file env req w))) = None →
  fst (get_file env req' (snd (put_file env req w))) = res_json (JsonAsset upd).
Proof.
  intros (vis & old & Hvis & _ & _ & Hc)%put_file_200 Hid Hsame Hread.
  rewrite <- Hsame in Hvis.
  rewrite (get_file_read _ _ _ _ Hvis Hread), Hc, Hid. by rewrite lookup_insert_eq.
Qed.

Lemma read_after_update_witness :
  ∃ upd,
    fst (put_file calm (request "a1" JUndefined (JStr (str "public")) (JStr (str "Week 1")) None)
           world1) = res_json (JsonAsset upd)
    ∧ Asset.title upd = str "Week 1"
    ∧ fst (get_file calm (read_request (str "a1") (str "Public"))
             (snd (put_file calm
                     (request "a1" JUndefined (JStr (str "public")) (JStr (str "Week 1")) None)
                     world1)))
      = res_json (JsonAsset upd).
Proof.
  eexists. split; [vm_compute; reflexivity|]. split; [reflexivity|].
  apply (read_after_update calm
           (request "a1" JUndefined (JStr (str "public")) (JStr (str "Week 1")) None)
           world1 _ (read_request (str "a1") (str "Public"))
           eq_refl eq_refl eq_refl eq_refl).
Defined.

(** X14: deleting a freshly uploaded asset removes what the upload stored:
    when the blob name was free before the upload and the three calls of the
    delete go through, the documents and the blobs held in the blob
    container are those from before the upload.  The blob container itself,
    which the upload creates when it is missing (line 66), is not removed by
    the delete and is no part of this statement. *)
Theorem delete_undoes_upload env req w d req' :
  fst (post_files env req w) = res_status_json 201 (JsonAsset d) →
  blobContainer w !! Asset.blobName d = None →
  params_id req' = Asset.id d →
  safeVisibility (query_visibility req') = inr (Asset.visibility d) →
  fault env (calls (snd (post_files env req w))) = None →
  fault env (S (calls (snd (post_files env req w)))) = None →
  fault env (S (S (calls (snd (post_files env req w))))) = None →
  fst (delete_file env req' (snd (post_files env req w))) = res_json (JsonDeleted (Asset.id d))
  ∧ container (snd (delete_file env req' (snd (post_files env req w)))) = container w
  ∧ blobContainer (snd (delete_file env req' (snd (post_files env req w)))) = blobContainer w.
Proof.
  intros Hpost Hblob Hid Hvis H0 H1 H2.
  assert (truthy (JStr (Asset.blobName d)) = true) as Hname.
  { destruct (post_files_201 _ _ _ _ Hpost) as (vis & t & f & _ & _ & _ & -> & _).
    cbn [Asset.blobName]. rewrite blobName_split.
    pose proof (id_in_nonempty env (next_call w)) as Hne.
    destruct (id_in env (next_call w)); [done | reflexivity]. }
  destruct (post_files_cases env req w)
    as [(_ & Hst & _) | (d' & f & Hd' & _ & Hfree & Hc & Hb)].
  { rewrite Hpost in Hst. by destruct Hst. }
  rewrite Hpost in Hd'. injection Hd' as <-.
  assert (container (snd (post_files env req w)) !! (params_id req', Asset.visibility d)
          = Some d) as Hd by (rewrite Hc, Hid; apply lookup_insert_eq).
  destruct (delete_file_run env req' _ _ _ Hvis Hd H0 H1 H2) as (-> & -> & ->).
  rewrite Hname, Hid, Hc, Hb, !delete_insert_eq, !delete_id by done. done.
Qed.

Lemma delete_undoes_upload_witness :
  ∃ d,
    fst (post_files calm (upload_notes JUndefined JUndefined) world1)
      = res_status_json 201 (JsonAsset d)
    ∧ container (snd (delete_file calm (read_request (Asset.id d) (str "private"))
                        (snd (post_files calm (upload_notes JUndefined JUndefined) world1))))
      = container world1
    ∧ blobContainer (snd (delete_file calm (read_request (Asset.id d) (str "private"))
                            (snd (post_files calm (upload_notes JUndefined JUndefined) world1))))
      = blobContainer world1.
Proof.
  eexists. split; [vm_compute; reflexivity|].
  apply (delete_undoes_upload calm (upload_notes JUndefined JUndefined) world1 _
           (read_request _ (str "private"))
           eq_refl eq_refl eq_refl eq_refl eq_refl eq_refl eq_refl).
Defined.

(** ** Rejected store calls *)

(** X15: when the first store call of a request is rejected, the handler
    answers 500 with the error's message, or with its own fallback text when
    the message is empty, and has made that one call only: the stores, the
    clock and the random source are untouched. *)
Theorem first_call_rejected env req w e :
  fault env (calls w) = Some e →
  (falsy_or_string (body_visibility req) → falsy_or_string (body_title req) →
   is_Some (file req) →
   post_files env req w
   = (res_status_json 500 (JsonError (message_or e (str "Upload failed"))), next_call w))
  ∧ (falsy_or_string (query_visibility req) →
     get_files env req w
     = (res_status_json 500 (JsonError (message_or e (str "Failed to list files"))),
        next_call w))
  ∧ (falsy_or_string (query_visibility req) →
     get_file env req w
     = (res_status_json 500 (JsonError (message_or e (str "Failed to get file"))),
        next_call w))
  ∧ (falsy_or_string (body_visibility req ||| query_visibility req) →
     falsy_or_string (body_title req) →
     put_file env req w
     = (res_status_json 500 (JsonError (message_or e (str "Failed to update file"))),
        next_call w))
  ∧ (falsy_or_string (query_visibility req) →
     delete_file env req w
     = (res_status_json 500 (JsonError (message_or e (str "Failed to delete file"))),
        next_call w)).
Proof.
  intros He. split; [|split; [|split; [|split]]].
  - intros [vis Hvis]%safeVisibility_defined Ht [f Hf].
    unfold post_files. run_body. rewrite Hvis, post_title_chain.
    destruct (post_title_default (file req)) as [s ->].
    apply (string_method_defined "trim" trim _ s) in Ht as [t ->].
    by rewrite Hf, He.
  - intros Hq. unfold get_files. run_body.
    destruct (truthy (query_visibility req)); [|by rewrite He].
    apply safeVisibility_defined in Hq as [vis ->]. by rewrite He.
  - intros [vis Hvis]%safeVisibility_defined. unfold get_file. run_body.
    by rewrite Hvis, He.
  - intros [vis Hvis]%safeVisibility_defined
           [t Ht]%(string_method_defined "trim" trim _ (str "")).
    unfold put_file. run_body.
    rewrite Hvis, Ht, (safeVisibility_truthy _ _ Hvis). cbn [negb]. by rewrite He.
  - intros [vis Hvis]%safeVisibility_defined. unfold delete_file. run_body.
    rewrite Hvis, (safeVisibility_truthy _ _ Hvis). cbn [negb]. by rewrite He.
Qed.

Lemma first_call_rejected_witness :
  get_files first_call_fails (request "" JUndefined JUndefined JUndefined None) world1
    = (res_status_json 500 (JsonError (str "Request timed out.")), next_call world1)
  ∧ delete_file first_call_fails delete_a1_public world1
    = (res_status_json 500 (JsonError (str "Request timed out.")), next_call world1).
Proof.
  destruct (first_call_rejected first_call_fails
              (request "" JUndefined JUndefined JUndefined None) world1 _ eq_refl)
    as (_ & Hlist & _).
  destruct (first_call_rejected first_call_fails delete_a1_public world1 _ eq_refl)
    as (_ & _ & _ & _ & Hdel).
  split.
  - apply Hlist. left. reflexivity.
  - apply Hdel. right. eexists. reflexivity.
Defined.

(** X19: an update of an id that is not in the partition is answered 404
    after the one read: no document and no blob changes, and the clock is
    not read. *)
Theorem put_file_not_found env req w vis :
  safeVisibility (body_visibility req ||| query_visibility req) = inr vis →
  falsy_or_string (body_title req) →
  fault env (calls w) = None →
  container w !! (params_id req, vis) = None →
  put_file env req w = (res_status_json 404 (JsonError (str "Not found")), next_call w).
Proof.
  intros Hvis [t Ht]%(string_method_defined "trim" trim _ (str "")) H0 Hnone.
  unfold put_file. run_body.
  rewrite Hvis, Ht, (safeVisibility_truthy _ _ Hvis). cbn [negb]. rewrite H0.
  cbn [container next_call]. by rewrite Hnone.
Qed.

Lemma put_file_not_found_witness :
  put_file calm (request "a1" JUndefined JUndefined (JStr (str "Week 1")) None) world1
    = (res_status_json 404 (JsonError (str "Not found")), next_call world1).
Proof.
  apply (put_file_not_found calm
           (request "a1" JUndefined JUndefined (JStr (str "Week 1")) None) world1
           (str "private") eq_refl).
  - right. eexists. reflexivity.
  - reflexivity.
  - reflexivity.
Defined.

(** ** POST /files: the path that stores a document *)

(** X22: an upload with a file part, a visibility and a title that
    normalise, three store calls that go through and a free id is answered
    201, and the world after it is fully determined: the document is inserted
    at (id, visibility), the blob is written under the blob name, and the
    request has made three store calls, read the clock twice and drawn 16
    random bytes. *)
Theorem post_files_succeeds env req w vis title f :
  safeVisibility (body_visibility req) = inr vis →
  call_string_method "trim" trim
    (body_title req ||| file_originalname (file req) ||| JStr (str "Untitled"))
    = inr title →
  file req = Some f →
  fault env (calls w) = None →
  fault env (S (calls w)) = None →
  fault env (S (S (calls w))) = None →
  container w !! (id_in env (next_call w), vis) = None →
  let id := id_in env (next_call w) in
  let blobName := replace_ws (id ++ str "-" ++ File.originalname f) in
  let d := Asset.mk id vis title (File.originalname f) (File.mimetype f) (File.size f)
             blobName (blobUrlOf env blobName)
             (clock env (ticks w)) (clock env (S (ticks w))) in
  post_files env req w
  = (res_status_json 201 (JsonAsset d),
     {| container := <[(id, vis) := d]> (container w);
        blobContainer := <[blobName := blob_of f]> (blobContainer w);
        ticks := S (S (ticks w));
        calls := S (S (S (calls w)));
        draws := (draws w + 16)%nat |}).
Proof.
  intros Hvis Htitle Hfile H0 H1 H2 Hfree. unfold post_files. run_body.
  rewrite Hvis, Htitle, Hfile, H0, makeId_run.
  cbn [calls next_call drawn]. rewrite H1.
  cbn [calls ticks next_call next_tick drawn set_blobContainer]. rewrite H2.
  cbn [calls ticks container next_call next_tick drawn set_blobContainer
         Asset.id Asset.visibility].
  by rewrite Hfree.
Qed.

Lemma post_files_succeeds_witness :
  status (fst (post_files calm
                 (upload_notes (JStr (str " Lecture notes ")) (JStr (str "PUBLIC"))) world1))
    = 201
  ∧ ticks (snd (post_files calm
                  (upload_notes (JStr (str " Lecture notes ")) (JStr (str "PUBLIC"))) world1))
    = 2%nat
  ∧ calls (snd (post_files calm
                  (upload_notes (JStr (str " Lecture notes ")) (JStr (str "PUBLIC"))) world1))
    = 3%nat
  ∧ draws (snd (post_files calm
                  (upload_notes (JStr (str " Lecture notes ")) (JStr (str "PUBLIC"))) world1))
    = 16%nat.
Proof.
  rewrite (post_files_succeeds calm
             (upload_notes (JStr (str " Lecture notes ")) (JStr (str "PUBLIC"))) world1
             (str "public") (str "Lecture notes") notes_pdf
             eq_refl eq_refl eq_refl eq_refl eq_refl eq_refl eq_refl).
  repeat split.
Defined.

(** X21 is [post_files_title]: the title an upload stores is the trimmed form
    of the first truthy one of the supplied title, the original file name and
    [Untitled]; the choice is made before the trimming.  Here, at a title of
    blanks. *)
Lemma post_files_title_witness :
  ∃ d f s,
    fst (post_files calm (upload_notes (JStr (str "   ")) JUndefined) world0)
      = res_status_json 201 (JsonAsset d)
    ∧ file (upload_notes (JStr (str "   ")) JUndefined) = Some f
    ∧ JStr (str "   ") ||| JStr (File.originalname f) ||| JStr (str "Untitled") = JStr s
    ∧ Asset.title d = trim s.
Proof.
  eexists.
  destruct (post_files_title calm (upload_notes (JStr (str "   ")) JUndefined) world0 _ eq_refl)
    as (f & s & Hf & Hs & _ & Ht).
  exists f, s. by repeat split.
Defined.

(** ** The helpers *)

Lemma lower_unit_variant c d :
  ¬ (65 ≤ d ≤ 90)%N →
  lower_unit c = d ↔ c = d ∨ ((65 ≤ c ≤ 90)%N ∧ d = (c + 32)%N).
Proof.
  intros Hd. unfold lower_unit.
  destruct ((65 <=? c)%N && (c <=? 90)%N) eqn:Hc.
  - apply andb_true_iff in Hc as [H1%N.leb_le H2%N.leb_le].
    split; [intros <-; by right | intros [-> | [_ ->]]; [lia | done]].
  - apply andb_false_iff in Hc.
    split; [by left | intros [-> | [[H1 H2] _]]; [done|]].
    destruct Hc as [Hc%N.leb_gt | Hc%N.leb_gt]; lia.
Qed.

Lemma toLowerCase_variant t s :
  Forall (λ d, ¬ (65 ≤ d ≤ 90)%N) t →
  toLowerCase s = t ↔ case_variant_of t s.
Proof.
  unfold case_variant_of, toLowerCase. intros Ht. revert s.
  induction Ht as [|d t Hd Ht IH]; intros [|c s]; cbn.
  - split; [constructor | done].
  - split; [discriminate | by intros ?%Forall2_nil_inv_r].
  - split; [discriminate | by intros ?%Forall2_nil_inv_l].
  - split.
    + intros [= Hc Hs]. constructor; [by apply lower_unit_variant | by apply IH].
    + intros [Hc Hs]%Forall2_cons. f_equal; [by apply lower_unit_variant | by apply IH].
Qed.

Lemma public_lowercase : Forall (λ d, ¬ (65 ≤ d ≤ 90)%N) (str "public").
Proof. repeat constructor; cbn; lia. Qed.

(** X16: [safeVisibility] answers [public] for a string exactly when the
    string is [public] written in some mix of upper and lower case (64
    spellings), and [private] for every other string, the spellings of
    [private] among them. *)
Theorem safeVisibility_case_variants s :
  (safeVisibility (JStr s) = inr (str "public") ↔ case_variant_of (str "public") s)
  ∧ (safeVisibility (JStr s) = inr (str "private") ↔ ¬ case_variant_of (str "public") s).
Proof.
  rewrite safeVisibility_string, <- (toLowerCase_variant _ _ public_lowercase).
  assert (s ≠ [] ∧ toLowerCase s = str "public" ↔ toLowerCase s = str "public") as Hiff.
  { split; [by intros [_ ?]|]. intros Hs. split; [|done]. by intros ->. }
  rewrite (bool_decide_ext _ _ Hiff).
  case_bool_decide as Hp; split; split; done.
Qed.

Example safeVisibility_spellings :
  safeVisibility (JStr (str "PuBlIc")) = inr (str "public")
  ∧ safeVisibility (JStr (str "PRIVATE")) = inr (str "private")
  ∧ safeVisibility (JStr (str "publi")) = inr (str "private")
  ∧ safeVisibility (JStr (str " public")) = inr (str "private").
Proof. repeat split. Qed.

Lemma replace_ws_from_length in_run s :
  (length (replace_ws_from in_run s) ≤ length s)%nat.
Proof.
  revert in_run. induction s as [|c s IH]; intros in_run; cbn; [done|].
  destruct (isWhiteSpace c); [destruct in_run|]; cbn;
    [pose proof (IH true) | pose proof (IH true) | pose proof (IH false)]; lia.
Qed.

(** X17: the sanitising of the blob name, [replace(/\s+/g, "_")], leaves no
    whitespace behind, never lengthens its input, changes nothing exactly
    when the input holds no whitespace, and so changes nothing when applied
    a second time. *)
Theorem replace_ws_sanitises s :
  clean (replace_ws s)
  ∧ (length (replace_ws s) ≤ length s)%nat
  ∧ (replace_ws s = s ↔ clean s)
  ∧ replace_ws (replace_ws s) = replace_ws s.
Proof.
  split; [apply replace_ws_from_clean|].
  split; [apply replace_ws_from_length|].
  split.
  - split; [intros <-; apply replace_ws_from_clean | apply replace_ws_from_id].
  - apply replace_ws_from_id, replace_ws_from_clean.
Qed.

Lemma hex_length bytes : length (hex bytes) = (2 * length bytes)%nat.
Proof.
  unfold hex. induction bytes as [|b l IH]; [reflexivity|].
  cbn. cbn in IH. rewrite IH. lia.
Qed.

Lemma drawn_bytes_length env w : length (drawn_bytes env w) = 16%nat.
Proof. unfold drawn_bytes. by rewrite length_fmap, length_seq. Qed.

Lemma id_in_length env w :
  length (id_in env w) = if hasRandomUUID env then 36%nat else 32%nat.
Proof.
  unfold id_in. destruct (hasRandomUUID env).
  - unfold uuid_of_bytes.
    rewrite !length_app, !hex_length, !length_take, !length_drop, !length_alter,
      drawn_bytes_length.
    reflexivity.
  - by rewrite hex_length, drawn_bytes_length.
Qed.

(** X18: the ids [makeId] gives on one platform all have the same length (36
    code units from [crypto.randomUUID], 32 from the hex fallback) and hold
    no whitespace, so the blob name of an upload determines its id: two
    uploads with different ids never write the same blob. *)
Theorem blobName_determines_id env req1 w1 d1 req2 w2 d2 :
  fst (post_files env req1 w1) = res_status_json 201 (JsonAsset d1) →
  fst (post_files env req2 w2) = res_status_json 201 (JsonAsset d2) →
  length (Asset.id d1) = (if hasRandomUUID env then 36%nat else 32%nat)
  ∧ length (Asset.id d2) = length (Asset.id d1)
  ∧ (Asset.blobName d1 = Asset.blobName d2 → Asset.id d1 = Asset.id d2).
Proof.
  intros (v1 & t1 & f1 & _ & _ & _ & -> & _)%post_files_201
         (v2 & t2 & f2 & _ & _ & _ & -> & _)%post_files_201.
  cbn [Asset.id Asset.blobName]. rewrite !blobName_split, !id_in_length.
  split; [reflexivity|]. split; [reflexivity|].
  intros Heq. apply app_inj_1 in Heq as [Heq _]; [exact Heq|].
  by rewrite !id_in_length.
Qed.

Lemma blobName_determines_id_witness :
  ∃ d1 d2,
    fst (post_files calm (upload_notes JUndefined JUndefined) world0)
      = res_status_json 201 (JsonAsset d1)
    ∧ fst (post_files calm (upload_notes (JStr (str "Copy")) JUndefined) world1)
      = res_status_json 201 (JsonAsset d2)
    ∧ length (Asset.id d1) = 36%nat
    ∧ length (Asset.id d2) = length (Asset.id d1).
Proof.
  eexists _, _. split; [vm_compute; reflexivity|]. split; [vm_compute; reflexivity|].
  destruct (blobName_determines_id calm
              (upload_notes JUndefined JUndefined) world0 _
              (upload_notes (JStr (str "Copy")) JUndefined) world1 _
              eq_refl eq_refl) as (H1 & H2 & _).
  split; [exact H1 | exact H2].
Defined.

(** ** Start-up *)

(** X20: the service starts only when COSMOS_ENDPOINT, COSMOS_KEY and
    BLOB_CONNECTION_STRING are all set to non-empty strings; otherwise the
    load throws, naming the first of the three, in that order, that is unset
    or empty. *)
Theorem check_env_first_missing a b c :
  (check_env a b c = inr () ↔ truthy a = true ∧ truthy b = true ∧ truthy c = true)
  ∧ (truthy a = false →
     check_env a b c
     = inl (Error (str "Missing environment variable: COSMOS_ENDPOINT")))
  ∧ (truthy a = true → truthy b = false →
     check_env a b c
     = inl (Error (str "Missing environment variable: COSMOS_KEY")))
  ∧ (truthy a = true → truthy b = true → truthy c = false →
     check_env a b c
     = inl (Error (str "Missing environment variable: BLOB_CONNECTION_STRING"))).
Proof.
  unfold check_env, requireEnv.
  destruct (truthy a), (truthy b), (truthy c); cbn [negb];
    repeat split; try done; intros; intuition discriminate.
Qed.

Lemma check_env_first_missing_witness :
  check_env (JStr (str "https://edushare.documents.azure.com")) (JStr (str "")) JUndefined
  = inl (Error (str "Missing environment variable: COSMOS_KEY")).
Proof.
  apply (check_env_first_missing
           (JStr (str "https://edushare.documents.azure.com")) (JStr (str "")) JUndefined);
    reflexivity.
Defined.
